(** * Resume Analyzer Pro: a shallow embedding of [app.py]

    The application is an orchestration script: it persists an uploaded PDF,
    extracts its text (text layer first, OCR second), normalises the language,
    sends two prompts to a hosted language model and renders two reports.

    Everything the script delegates to a library or to a remote service
    (pdfplumber, pdf2image, pytesseract, langdetect, googletrans, the
    generative model, [json.loads], FPDF, python-docx) is an oracle of the
    [World] record; the code of [app.py] itself is translated function by
    function on top of it.  Python exceptions are the [Raise] results of an
    exception monad whose state (disk, open handles, trace of calls and of user
    interface output) survives a raise, as it does in Python. *)

From Stdlib Require Import String Ascii NArith ZArith List Bool Lia.
From stdpp Require Import base gmap strings list pretty.

Set Warnings "-register-all".

Local Open Scope N_scope.
Local Open Scope list_scope.

(** ** Python values *)

(** A Python [str] is a sequence of Unicode code points: slicing, [strip] and
    [replace] all work per code point, so a string is a list of them. *)
Abbreviation pystr := (list N).
Abbreviation bytes := (list Byte.byte).

(** ASCII literals of the source, written as Rocq strings. *)
Definition py (s : string) : pystr :=
  map N_of_ascii (list_ascii_of_string s).

(** The message carried by an exception, that is [str(e)]. *)
Abbreviation exn := (list N).

Inductive result (A : Type) : Type :=
| Ok (a : A)
| Raise (e : exn).
Arguments Ok {A} a.
Arguments Raise {A} e.

Definition is_raise {A} (r : result A) : bool :=
  match r with Raise _ => true | Ok _ => false end.

(** What [json.loads] builds: dicts keep insertion order. *)
Inductive json : Type :=
| JNull
| JBool (b : bool)
| JInt (z : Z)
| JFloat (repr : pystr)
| JStr (s : pystr)
| JList (items : list json)
| JDict (kvs : list (pystr * json)).

(** ** String operations of the standard library used by the script *)

Module Str.

(** [str.isspace] for one code point. *)
Definition is_space (c : N) : bool :=
  ((9 <=? c) && (c <=? 13)) || ((28 <=? c) && (c <=? 32))
  || (c =? 133) || (c =? 160) || (c =? 5760)
  || ((8192 <=? c) && (c <=? 8202))
  || (c =? 8232) || (c =? 8233) || (c =? 8239) || (c =? 8287)
  || (c =? 12288).

Fixpoint lstrip (s : pystr) : pystr :=
  match s with
  | c :: s' => if is_space c then lstrip s' else s
  | [] => []
  end.

Definition rstrip (s : pystr) : pystr := rev (lstrip (rev s)).

(** [s.strip()] *)
Definition strip (s : pystr) : pystr := lstrip (rstrip s).

(** Truth value of a string: non-empty. *)
Definition truthy (s : pystr) : bool :=
  match s with [] => false | _ :: _ => true end.

(** Truth value of an optional string ([None] and [""] are false). *)
Definition truthy_opt (o : option pystr) : bool :=
  match o with Some s => truthy s | None => false end.

(** [sep.join(parts)] *)
Fixpoint join (sep : pystr) (parts : list pystr) : pystr :=
  match parts with
  | [] => []
  | [p] => p
  | p :: rest => p ++ sep ++ join sep rest
  end.

(** [s.split(sep)] for a one-character separator. *)
Fixpoint split (sep : N) (s : pystr) : list pystr :=
  match s with
  | [] => [[]]
  | c :: s' =>
      if c =? sep then [] :: split sep s'
      else match split sep s' with
           | h :: t => (c :: h) :: t
           | [] => [[c]]
           end
  end.

Fixpoint starts_with (p s : pystr) : bool :=
  match p, s with
  | [], _ => true
  | a :: p', b :: s' => (a =? b) && starts_with p' s'
  | _ :: _, [] => false
  end.

(** [old in s] *)
Fixpoint contains (old s : pystr) : bool :=
  starts_with old s ||
  match s with
  | [] => false
  | _ :: s' => contains old s'
  end.

(** Left-to-right scan of [s.replace(old, new)] for a non-empty [old];
    [skip] counts the characters of a match still to be dropped. *)
Fixpoint replace_scan (old new : pystr) (skip : nat) (s : pystr) : pystr :=
  match s with
  | [] => []
  | c :: s' =>
      match skip with
      | S k => replace_scan old new k s'
      | O =>
          if starts_with old s
          then new ++ replace_scan old new (Nat.pred (length old)) s'
          else c :: replace_scan old new O s'
      end
  end.

(** [s.replace(old, new)]: all non-overlapping occurrences, left to right;
    an empty [old] matches before every character and at the end. *)
Definition replace (old new s : pystr) : pystr :=
  match old with
  | [] => new ++ flat_map (fun c => c :: new) s
  | _ :: _ => replace_scan old new O s
  end.

Definition newline : pystr := [10].

End Str.

(** ** The process state *)

(** What the user interface shows and which external services were invoked,
    in program order. *)
Inductive event : Type :=
| st_warning (msg : pystr)
| st_error (msg : pystr)
| st_success (msg : pystr)
| st_subheader (msg : pystr)
| st_write (msg : pystr)
| st_download_button (label : pystr) (data : bytes) (file_name : pystr)
| call_pdfplumber_open (path : string)
| call_convert_from_path (path : string)
| call_image_to_string
| call_translate (src dest : pystr)
| call_generate_content (prompt : pystr).

Record State : Type := mkState {
  files : gmap string bytes;     (* the working directory *)
  handles : list string;         (* paths of the file objects still open *)
  trace : list event             (* oldest first *)
}.

(** ** Computations that may raise *)

Definition M (A : Type) : Type := State -> result A * State.

Definition ret {A} (a : A) : M A := fun st => (Ok a, st).

Definition raise {A} (e : exn) : M A := fun st => (Raise e, st).

Definition bind {A B} (m : M A) (k : A -> M B) : M B :=
  fun st =>
    match m st with
    | (Ok a, st') => k a st'
    | (Raise e, st') => (Raise e, st')
    end.

(** [try: m  except ... as e: h e] *)
Definition try_except {A} (m : M A) (h : exn -> M A) : M A :=
  fun st =>
    match m st with
    | (Ok a, st') => (Ok a, st')
    | (Raise e, st') => h e st'
    end.

(** The outcome of a library call, taken as it is. *)
Definition lift {A} (r : result A) : M A := fun st => (r, st).

Declare Scope py_scope.
Delimit Scope py_scope with py_m.
Notation "x <- m ;; k" := (bind m (fun x => k))
  (at level 100, m at next level, right associativity) : py_scope.
Notation "m ;; k" := (bind m (fun _ => k))
  (at level 100, right associativity) : py_scope.
Local Open Scope py_scope.

Definition emit (e : event) : M unit :=
  fun st => (Ok tt, mkState (files st) (handles st) (trace st ++ [e])).

(** *** Files

    The working directory is a finite map from paths to contents.  Creating
    and writing a local file is taken to succeed; opening a missing file for
    reading raises. *)

Fixpoint close_handle (path : string) (hs : list string) : list string :=
  match hs with
  | [] => []
  | h :: hs' => if String.eqb h path then hs' else h :: close_handle path hs'
  end.

(** [open(path, "wb")]: the file is created or truncated. *)
Definition open_wb (path : string) : M unit :=
  fun st => (Ok tt, mkState (<[path := []]> (files st)) (path :: handles st) (trace st)).

(** [open(path, "rb")] *)
Definition open_rb (path : string) : M bytes :=
  fun st =>
    match files st !! path with
    | Some data => (Ok data, mkState (files st) (path :: handles st) (trace st))
    | None => (Raise (py "[Errno 2] No such file or directory"), st)
    end.

(** [f.write(data)] on a file opened for writing. *)
Definition write (path : string) (data : bytes) : M unit :=
  fun st =>
    (Ok tt, mkState (<[path := default [] (files st !! path) ++ data]> (files st))
                    (handles st) (trace st)).

(** Leaving a [with] block: the file object is closed. *)
Definition close (path : string) : M unit :=
  fun st => (Ok tt, mkState (files st) (close_handle path (handles st)) (trace st)).

(** Content of a file a library reads by path. *)
Definition read_path (path : string) : M bytes :=
  fun st =>
    match files st !! path with
    | Some data => (Ok data, st)
    | None => (Raise (py "[Errno 2] No such file or directory"), st)
    end.

(** ** The outside world *)

(** A page of an opened PDF: [page.extract_text()] yields [None], a string,
    or raises. *)
Record Page : Type := { extract_text : result (option pystr) }.

(** A rasterised page; the field is what [pytesseract.image_to_string]
    answers for it. *)
Record PILImage : Type := { image_to_string : result pystr }.

(** The model's reply; reading [response.text] may raise. *)
Record Response : Type := { text : result pystr }.

Inductive font : Type := Arial | Helvetica.

(** An [FPDF] document being built. *)
Record FPDF : Type := mkFPDF {
  current_font : option font;
  cells : list pystr
}.

(** A python-docx document: its blocks in order. *)
Inductive block : Type :=
| Heading (level : nat) (s : pystr)
| Paragraph (s : pystr).

(** What a library call that writes a file does: it stores [data], or it
    raises [e] and leaves [left] in the file when it had already touched it. *)
Inductive saved : Type :=
| Saved (data : bytes)
| NotSaved (left : option bytes) (e : exn).

Record World : Type := {
  (* pdfplumber.open on a file with this content, and its .pages *)
  pdfplumber_open : bytes -> result (list Page);
  (* pdf2image.convert_from_path on a file with this content *)
  convert_from_path : bytes -> result (list PILImage);
  (* langdetect.detect *)
  detect : pystr -> result pystr;
  (* Translator().translate(text, src=, dest=).text *)
  translate : pystr -> pystr -> pystr -> result pystr;
  (* model.generate_content *)
  generate_content : pystr -> result Response;
  (* json.loads *)
  json_loads : pystr -> result json;
  (* str() of a value that is not a string *)
  py_str : json -> pystr;
  (* pdf.add_font("Arial", "", "c:/windows/fonts/arial.ttf", uni=True) *)
  add_font_arial : result unit;
  (* the metrics cache a successful add_font leaves beside the font, when it
     writes one (PyFPDF 1.7 does: arial.pkl) *)
  add_font_cache : option bytes;
  (* the width cache pdf.output leaves beside a loaded font, when it writes
     one (PyFPDF 1.7 does: arial.cw127.pkl) *)
  output_cache : option bytes;
  (* pdf.multi_cell(0, 10, content) under the current font *)
  multi_cell : option font -> pystr -> result unit;
  (* pdf.output(filename) *)
  fpdf_output : FPDF -> saved;
  (* doc.save(filename) *)
  docx_save : list block -> saved
}.

Section Pipeline.

Variable w : World.

(** *** PDF processing: [extract_text_from_pdf] *)

(** Lines 27-30.  The local [text] keeps what was appended before a page
    raised, so the loop returns it next to the outcome. *)
Fixpoint pages_loop (pages : list Page) (text : pystr) : pystr * result unit :=
  match pages with
  | [] => (text, Ok tt)
  | page :: rest =>
      match extract_text page with
      | Raise e => (text, Raise e)
      | Ok page_text =>
          pages_loop rest
            (if Str.truthy_opt page_text
             then text ++ default [] page_text
             else text)
      end
  end.

(** Lines 23-24: [with open("temp.pdf", "wb") as f: f.write(...)]. *)
Definition save_upload (uploaded_file : bytes) : M unit :=
  open_wb "temp.pdf" ;;
  write "temp.pdf" uploaded_file ;;
  close "temp.pdf".

(** Lines 23-33, the body of the first [try].  The first component is the
    value of the local [text] when the block is left; the second is
    [Ok (Some r)] for [return r], [Ok None] when control falls through. *)
Definition direct_extraction (uploaded_file : bytes) (st : State)
  : pystr * result (option pystr) * State :=
  let st1 := snd (save_upload uploaded_file st) in
  match (emit (call_pdfplumber_open "temp.pdf") ;;
         data <- open_rb "temp.pdf" ;;
         try_except (lift (pdfplumber_open w data))
                    (fun e => close "temp.pdf" ;; raise e)) st1 with
  | (Raise e, st2) => ([], Raise e, st2)
  | (Ok pages, st2) =>
      let '(text, r) := pages_loop pages [] in
      let st3 := snd (close "temp.pdf" st2) in
      match r with
      | Raise e => (text, Raise e, st3)
      | Ok _ =>
          if Str.truthy (Str.strip text)
          then (text, Ok (Some (Str.strip text)), st3)
          else (text, Ok None, st3)
      end
  end.

(** Lines 39-40. *)
Fixpoint ocr_loop (images : list PILImage) (text : pystr) : M pystr :=
  match images with
  | [] => ret text
  | image :: rest =>
      emit call_image_to_string ;;
      s <- lift (image_to_string image) ;;
      ocr_loop rest (text ++ s ++ Str.newline)
  end.

(** Lines 37-44, entered with the current value of [text]. *)
Definition ocr_fallback (text : pystr) : M pystr :=
  try_except
    (emit (call_convert_from_path "temp.pdf") ;;
     data <- read_path "temp.pdf" ;;
     images <- lift (convert_from_path w data) ;;
     text' <- ocr_loop images text ;;
     ret (Str.strip text'))
    (fun e => emit (st_error (py "OCR failed: " ++ e)) ;; ret []).

Definition extract_text_from_pdf (uploaded_file : bytes) : M pystr :=
  fun st =>
    match direct_extraction uploaded_file st with
    | (_, Ok (Some r), st') => (Ok r, st')
    | (text, Ok None, st') => ocr_fallback text st'
    | (text, Raise e, st') =>
        (emit (st_warning (py "Direct extraction failed: " ++ e)) ;;
         ocr_fallback text) st'
    end.

(** *** Language support: [detect_and_translate] *)

Definition detect_and_translate (text : pystr) (target_lang : pystr) : M pystr :=
  try_except
    (src_lang <- lift (detect w text) ;;
     if bool_decide (src_lang <> target_lang)
     then emit (call_translate src_lang target_lang) ;;
          lift (translate w text src_lang target_lang)
     else ret text)
    (fun _ => ret text).

(** *** Resume analysis: [analyze_resume] *)

(** Lines 62-84: the list [prompt]. *)
Definition analyze_prompt (translated_text : pystr)
           (job_description : option pystr) (language : pystr) : list pystr :=
  [ py "Analyze this resume (originally in " ++ language ++ py ") and provide:";
    py "1. Skills Summary (Technical & Soft Skills)";
    py "2. Missing Skills for Target Roles";
    py "3. Improvement Recommendations (Courses/Certifications)";
    py "4. Strengths & Weaknesses";
    py "5. " ++ (if Str.truthy_opt job_description
                 then py "Job Fit Analysis"
                 else py "General Career Advice");
    [];
    py "Resume:";
    translated_text ]
  ++ (if Str.truthy_opt job_description
      then [ [];
             py "Job Description:";
             default [] job_description;
             [];
             py "Compare and highlight:";
             py "- Matching qualifications";
             py "- Missing requirements";
             py "- Suggested adaptations" ]
      else []).

Definition analyze_resume (resume_text : pystr)
           (job_description : option pystr) (language : pystr) : M pystr :=
  translated_text <- detect_and_translate resume_text (py "en") ;;
  let prompt := analyze_prompt translated_text job_description language in
  emit (call_generate_content (Str.join Str.newline prompt)) ;;
  response <- lift (generate_content w (Str.join Str.newline prompt)) ;;
  lift (text response).

(** *** ATS compliance check: [check_ats_compliance] *)

Definition ats_prompt (resume_text : pystr) : pystr :=
  Str.join Str.newline
    [ py "Evaluate ATS (Applicant Tracking System) compliance:";
      py "1. Keyword Optimization";
      py "2. Proper Headings";
      py "3. No Graphics/Tables";
      py "4. Standard Fonts";
      py "5. Correct File Format";
      py "6. Skills Match";
      py "7. Contact Info Visibility";
      [];
      py "Return JSON with:";
      py "{" ++ [34] ++ py "strengths" ++ [34] ++ py ": [str],";
      [34] ++ py "weaknesses" ++ [34] ++ py ": [str],";
      [34] ++ py "suggestions" ++ [34] ++ py ": [str]}";
      [];
      py "Resume: " ++ take 2000 resume_text ].

Definition empty_compliance : json :=
  JDict [ (py "strengths", JList []);
          (py "weaknesses", JList []);
          (py "suggestions", JList []) ].

Definition check_ats_compliance (resume_text : pystr) : M json :=
  let prompt := ats_prompt resume_text in
  try_except
    (emit (call_generate_content prompt) ;;
     response <- lift (generate_content w prompt) ;;
     t <- lift (text response) ;;
     lift (json_loads w t))
    (fun _ => ret empty_compliance).

(** *** Report generation *)

(** The dict [replacements], in insertion order. *)
Definition replacements : list (pystr * pystr) :=
  [ ([8211], py "-");      (* en dash *)
    ([8212], py "-");      (* em dash *)
    ([8216], py "'");      (* left single quotation mark *)
    ([8217], py "'");      (* right single quotation mark *)
    ([8220], [34]);        (* left double quotation mark *)
    ([8221], [34]);        (* right double quotation mark *)
    ([8230], py "...") ].  (* horizontal ellipsis *)

Definition clean_text_for_pdf (text : pystr) : pystr :=
  fold_left (fun text kv => Str.replace (fst kv) (snd kv) text) replacements text.

(** A library call that saves to [path]. *)
Definition save_to (path : string) (s : saved) : M unit :=
  fun st =>
    match s with
    | Saved data =>
        (Ok tt, mkState (<[path := data]> (files st)) (handles st) (trace st))
    | NotSaved (Some data) e =>
        (Raise e, mkState (<[path := data]> (files st)) (handles st) (trace st))
    | NotSaved None e => (Raise e, st)
    end.

Definition set_font (f : font) (pdf : FPDF) : FPDF :=
  mkFPDF (Some f) (cells pdf).

(** A cache file a library leaves at [path], when it writes one. *)
Definition leave_cache (path : string) (cache : option bytes) : M unit :=
  fun st =>
    match cache with
    | Some data =>
        (Ok tt, mkState (<[path := data]> (files st)) (handles st) (trace st))
    | None => (Ok tt, st)
    end.

(** [pdf.output(filename)]: font caches first, then the document. *)
Definition output (pdf : FPDF) (filename : string) : M unit :=
  match current_font pdf with
  | Some Arial => leave_cache "c:/windows/fonts/arial.cw127.pkl" (output_cache w)
  | _ => ret tt
  end ;;
  save_to filename (fpdf_output w pdf).

Definition generate_pdf_report (content : pystr) (filename : string)
  : M (option string) :=
  try_except
    (let pdf := mkFPDF None [] in
     pc <- try_except
             (lift (add_font_arial w) ;;
              leave_cache "c:/windows/fonts/arial.pkl" (add_font_cache w) ;;
              ret (set_font Arial pdf, content))
             (fun _ => ret (set_font Helvetica pdf, clean_text_for_pdf content)) ;;
     let '(pdf, content) := pc in
     lift (multi_cell w (current_font pdf) content) ;;
     let pdf := mkFPDF (current_font pdf) (cells pdf ++ [content]) in
     output pdf filename ;;
     ret (Some filename))
    (fun e => emit (st_error (py "PDF generation failed: " ++ e)) ;; ret None).

Definition generate_word_report (content : pystr) (filename : string)
  : M (option string) :=
  try_except
    (let doc :=
       Heading 0 (py "Resume Analysis Report")
       :: map Paragraph
            (filter (fun line => Str.truthy (Str.strip line)) (Str.split 10 content)) in
     save_to filename (docx_save w doc) ;;
     ret (Some filename))
    (fun e => emit (st_error (py "Word report generation failed: " ++ e)) ;; ret None).

(** *** The page script: settings and the "Run Full Analysis" handler *)

(** What the widgets return in one run of the script. *)
Record Inputs : Type := mkInputs {
  language : pystr;              (* st.selectbox("Resume Language", ...) *)
  analysis_depth : pystr;        (* st.radio("Analysis Depth", ...) *)
  uploaded_file : option bytes;  (* st.file_uploader *)
  job_desc : pystr;              (* st.text_area *)
  run_full_analysis : bool       (* st.button("Run Full Analysis") *)
}.

(** [type(obj).__name__] *)
Definition type_name (obj : json) : pystr :=
  match obj with
  | JNull => py "NoneType"
  | JBool _ => py "bool"
  | JInt _ => py "int"
  | JFloat _ => py "float"
  | JStr _ => py "str"
  | JList _ => py "list"
  | JDict _ => py "dict"
  end.

(** [obj[key]] for a string key (messages as of Python 3.11). *)
Definition subscript (obj : json) (key : pystr) : M json :=
  match obj with
  | JDict kvs =>
      match find (fun kv => bool_decide (fst kv = key)) kvs with
      | Some kv => ret (snd kv)
      | None => raise (py "'" ++ key ++ py "'")
      end
  | JList _ => raise (py "list indices must be integers or slices, not str")
  | JStr _ => raise (py "string indices must be integers, not 'str'")
  | _ => raise (py "'" ++ type_name obj ++ py "' object is not subscriptable")
  end.

(** The items a [for] loop or [join] draws from a value. *)
Definition iterate (obj : json) : M (list json) :=
  match obj with
  | JList items => ret items
  | JStr s => ret (map (fun c => JStr [c]) s)
  | JDict kvs => ret (map (fun kv => JStr (fst kv)) kvs)
  | _ => raise (py "'" ++ type_name obj ++ py "' object is not iterable")
  end.

(** [f"{item}"] *)
Definition format (item : json) : pystr :=
  match item with
  | JStr s => s
  | _ => py_str w item
  end.

(** The strings of [items], from position [i] on; [join] refuses the first
    item that is not a string. *)
Fixpoint all_str (i : nat) (items : list json) : M (list pystr) :=
  match items with
  | [] => ret []
  | JStr s :: rest => l <- all_str (S i) rest ;; ret (s :: l)
  | item :: _ =>
      raise (py "sequence item " ++ py (pretty i) ++ py ": expected str instance, "
             ++ type_name item ++ py " found")
  end.

(** [sep.join(obj)] *)
Definition join_value (sep : pystr) (obj : json) : M pystr :=
  items <- iterate obj ;;
  strs <- all_str 0 items ;;
  ret (Str.join sep strs).

Fixpoint write_items (items : list json) : M unit :=
  match items with
  | [] => ret tt
  | item :: rest => emit (st_write (py "- " ++ format item)) ;; write_items rest
  end.

(** Lines 224-226 and 230-232. *)
Definition offer_download (path : option string) (label file_name : pystr) : M unit :=
  match path with
  | Some p =>
      data <- open_rb p ;;
      emit (st_download_button label data file_name) ;;
      close p
  | None => ret tt
  end.

(** Lines 188-232. *)
Definition run_analysis (resume_text : pystr) (inp : Inputs) : M unit :=
  analysis <- analyze_resume resume_text (Some (job_desc inp)) (language inp) ;;
  ats_data <- check_ats_compliance resume_text ;;
  emit (st_success (py "Analysis Complete!")) ;;
  emit (st_subheader ([128203] ++ py " ATS Compliance Analysis")) ;;
  emit (st_write ([9989] ++ py " Strengths:")) ;;
  strengths <- subscript ats_data (py "strengths") ;;
  items <- iterate strengths ;;
  write_items items ;;
  emit (st_write ([9888; 65039] ++ py " Improvements Needed:")) ;;
  suggestions <- subscript ats_data (py "suggestions") ;;
  items <- iterate suggestions ;;
  write_items items ;;
  emit (st_subheader ([128221] ++ py " Detailed Analysis")) ;;
  emit (st_write analysis) ;;
  strengths <- subscript ats_data (py "strengths") ;;
  joined_strengths <- join_value (py ", ") strengths ;;
  suggestions <- subscript ats_data (py "suggestions") ;;
  joined_suggestions <- join_value (py ", ") suggestions ;;
  let report_content :=
    Str.join Str.newline
      [ py "RESUME ANALYSIS REPORT";
        py "----------------------";
        py "ATS COMPLIANCE ANALYSIS:";
        py "Strengths: " ++ joined_strengths;
        py "Suggestions: " ++ joined_suggestions;
        [];
        py "DETAILED ANALYSIS:";
        analysis ] in
  pdf_path <- generate_pdf_report report_content "report.pdf" ;;
  offer_download pdf_path (py "Download PDF Report") (py "resume_analysis.pdf") ;;
  docx_path <- generate_word_report report_content "report.docx" ;;
  offer_download docx_path (py "Download Word Report") (py "resume_analysis.docx").

(** Lines 182-232: one run of the script for the given widget values. *)
Definition run_script (inp : Inputs) : M unit :=
  match uploaded_file inp with
  | Some file =>
      resume_text <- extract_text_from_pdf file ;;
      if run_full_analysis inp then run_analysis resume_text inp else ret tt
  | None => ret tt
  end.

End Pipeline.

(** The prompts sent to the generative model, in order. *)
Definition prompts_sent (tr : list event) : list pystr :=
  omap (fun e => match e with call_generate_content p => Some p | _ => None end) tr.

(** Whether the OCR fallback was exercised. *)
Definition is_ocr_call (e : event) : bool :=
  match e with
  | call_convert_from_path _ | call_image_to_string => true
  | _ => false
  end.

(** * Vocabulary of the properties *)

(** Text made of whitespace only. *)
Definition blank (s : pystr) : bool := forallb Str.is_space s.

Section ExtractionVocabulary.

Variable w : World.

(** A page whose text layer is [layer] ([None] when it has none). *)
Definition page_of_layer (layer : option pystr) : Page :=
  {| extract_text := Ok layer |}.

(** The text layers of the pages that have one, concatenated in page
    order. *)
Definition text_layer (layers : list (option pystr)) : pystr :=
  concat (omap id layers).

(** A rasterised page on which OCR answers [out]. *)
Definition image_of_ocr (out : pystr) : PILImage :=
  {| image_to_string := Ok out |}.

(** The OCR answers of the pages, or the first failure. *)
Fixpoint collect_ocr (images : list PILImage) : result (list pystr) :=
  match images with
  | [] => Ok []
  | image :: rest =>
      match image_to_string image with
      | Raise e => Raise e
      | Ok s =>
          match collect_ocr rest with
          | Ok l => Ok (s :: l)
          | Raise e => Raise e
          end
      end
  end.

Definition ocr_outputs (file : bytes) : result (list pystr) :=
  match convert_from_path w file with
  | Ok images => collect_ocr images
  | Raise e => Raise e
  end.

(** Per-page OCR output, each page followed by the separator. *)
Definition ocr_text (outs : list pystr) : pystr :=
  concat (map (fun s => s ++ Str.newline) outs).

(** Structured extraction left nothing usable: the PDF did not open, or
    the text accumulated from its pages is blank. *)
Definition no_usable_text (file : bytes) : Prop :=
  match pdfplumber_open w file with
  | Raise _ => True
  | Ok pages => Str.strip (fst (pages_loop pages [])) = []
  end.

(** The state once the upload is on disk and pdfplumber has been asked to
    open it. *)
Definition after_save (file : bytes) (st : State) : State :=
  mkState (<["temp.pdf"%string := file]> (files st)) (handles st)
          (trace st ++ [call_pdfplumber_open "temp.pdf"]).

(** What the OCR fallback returns when entered with [text]. *)
Definition fallback_text (file : bytes) (text : pystr) : pystr :=
  match ocr_outputs file with
  | Ok outs => Str.strip (text ++ ocr_text outs)
  | Raise _ => []
  end.

(** The value of [extract_text_from_pdf], as a function of what the
    libraries answer. *)
Definition extracted_text (file : bytes) : pystr :=
  match pdfplumber_open w file with
  | Raise _ => fallback_text file []
  | Ok pages =>
      let text := fst (pages_loop pages []) in
      match snd (pages_loop pages []) with
      | Raise _ => fallback_text file text
      | Ok _ =>
          if Str.truthy (Str.strip text) then Str.strip text
          else fallback_text file text
      end
  end.

End ExtractionVocabulary.

(** Extending a state's trace. *)
Definition traced (st : State) (tr : list event) : State :=
  mkState (files st) (handles st) (trace st ++ tr).

(** A computation that sends nothing to the generative model. *)
Definition quiet {A} (m : M A) : Prop :=
  forall st, prompts_sent (trace (snd (m st))) = prompts_sent (trace st).

Section ClientVocabulary.

Variable w : World.

(** The value of [detect_and_translate], as a function of what the
    detector and the translator answer. *)
Definition normalized (text target : pystr) : pystr :=
  match detect w text with
  | Raise _ => text
  | Ok src =>
      if bool_decide (src <> target)
      then match translate w text src target with
           | Ok t => t
           | Raise _ => text
           end
      else text
  end.

(** The translator calls [detect_and_translate] makes. *)
Definition translate_calls (text target : pystr) : list event :=
  match detect w text with
  | Raise _ => []
  | Ok src => if bool_decide (src <> target) then [call_translate src target] else []
  end.

(** Detection raises, or the detected language is the target, or the
    translation raises. *)
Definition falls_back (text target : pystr) : Prop :=
  match detect w text with
  | Raise _ => True
  | Ok src => src = target \/ is_raise (translate w text src target) = true
  end.

(** [model.generate_content(prompt).text] *)
Definition reply (prompt : pystr) : result pystr :=
  match generate_content w prompt with
  | Ok response => text response
  | Raise e => Raise e
  end.

(** The request errors or the reply is not valid JSON. *)
Definition no_structured_reply (prompt : pystr) : Prop :=
  match reply prompt with
  | Raise _ => True
  | Ok t => is_raise (json_loads w t) = true
  end.

(** The value of [check_ats_compliance]. *)
Definition compliance_value (resume_text : pystr) : json :=
  match reply (ats_prompt resume_text) with
  | Raise _ => empty_compliance
  | Ok t =>
      match json_loads w t with
      | Ok j => j
      | Raise _ => empty_compliance
      end
  end.

End ClientVocabulary.

(** The framing line of the analysis prompt. *)
Definition framing (language : pystr) : pystr :=
  py "Analyze this resume (originally in " ++ language ++ py ") and provide:".

(** The fixed part of the compliance prompt, up to and including
    ["Resume: "]. *)
Definition ats_instructions : pystr := ats_prompt [].

Definition has_list_field (kvs : list (pystr * json)) (key : pystr) : bool :=
  match find (fun kv => bool_decide (fst kv = key)) kvs with
  | Some (_, JList _) => true
  | _ => false
  end.

(** A record with exactly the fields strengths, weaknesses and suggestions,
    each holding a list. *)
Definition is_compliance_record (j : json) : bool :=
  match j with
  | JDict kvs =>
      (length kvs =? 3)%nat
      && has_list_field kvs (py "strengths")
      && has_list_field kvs (py "weaknesses")
      && has_list_field kvs (py "suggestions")
  | _ => false
  end.

(** The ASCII stand-in for one character: en and em dash become a hyphen,
    curly single quotes an apostrophe, curly double quotes a straight double
    quote, the ellipsis three full stops; everything else stays. *)
Definition ascii_equivalent (c : N) : pystr :=
  if (c =? 8211) || (c =? 8212) then py "-"
  else if (c =? 8216) || (c =? 8217) then py "'"
  else if (c =? 8220) || (c =? 8221) then [34]
  else if c =? 8230 then py "..."
  else [c].

(** * Scenarios

    Concrete surroundings on which the script is run below. *)

Module Scenario.

(** A fresh working directory, nothing open, nothing shown yet. *)
Definition fresh : State := mkState ∅ [] [].

(** [json.loads] restricted to the one document used below: the empty
    object.  Everything else is rejected. *)
Definition loads_empty_object (s : pystr) : result json :=
  if bool_decide (s = py "{}") then Ok (JDict [])
  else Raise (py "Expecting value: line 1 column 1 (char 0)").

(** The core fonts of FPDF are Latin-1 fonts: text with a code point above
    255 is refused under them. *)
Definition latin1_only (f : option font) (s : pystr) : result unit :=
  match f with
  | Some Arial => Ok tt
  | _ =>
      if forallb (fun c => c <=? 255) s then Ok tt
      else Raise (py "'latin-1' codec can't encode character")
  end.

(** Surroundings fixed by what each library or service answers. *)
Definition surroundings
           (pages : result (list Page))
           (images : result (list PILImage))
           (lang : result pystr)
           (translation : result pystr)
           (reply : result pystr)
           (arial : result unit) : World :=
  {| pdfplumber_open := fun _ => pages;
     convert_from_path := fun _ => images;
     detect := fun _ => lang;
     translate := fun _ _ _ => translation;
     generate_content := fun _ => Ok {| text := reply |};
     json_loads := loads_empty_object;
     py_str := fun _ => [];
     add_font_arial := arial;
     add_font_cache := None;
     output_cache := None;
     multi_cell := latin1_only;
     fpdf_output := fun _ => Saved [Byte.x25; Byte.x50; Byte.x44; Byte.x46];
     docx_save := fun _ => Saved [Byte.x50; Byte.x4b] |}.

Definition no_font : result unit := Raise (py "TTF Font file not found").

(** A three-page PDF whose middle page has no text layer; English text. *)
Definition text_pdf : World :=
  surroundings
    (Ok [ page_of_layer (Some (py "Python Developer"));
          page_of_layer None;
          page_of_layer (Some (py " with 5 years experience" ++ [10])) ])
    (Ok []) (Ok (py "en")) (Raise (py "unused")) (Ok (py "Looks fine.")) no_font.

(** A one-page scan: no text layer, and OCR output that starts with a
    space. *)
Definition scanned_pdf : World :=
  surroundings
    (Ok [ page_of_layer None ]) (Ok [ image_of_ocr (py " A") ])
    (Ok (py "en")) (Raise (py "unused")) (Ok (py "Looks fine.")) no_font.

(** A Spanish resume that the translator renders in English. *)
Definition spanish_pdf : World :=
  surroundings
    (Ok [ page_of_layer (Some (py "Hola")) ]) (Ok [])
    (Ok (py "es")) (Ok (py "Hello")) (Ok (py "Looks fine.")) no_font.

(** The model answers with an empty JSON object. *)
Definition terse_model : World :=
  surroundings
    (Ok [ page_of_layer (Some (py "Python Developer")) ]) (Ok [])
    (Ok (py "en")) (Raise (py "unused")) (Ok (py "{}")) no_font.

(** A two-page PDF whose second page cannot be parsed; OCR reads both
    pages. *)
Definition broken_page : World :=
  surroundings
    (Ok [ page_of_layer (Some (py "Hello"));
          {| extract_text := Raise (py "Unexpected EOF") |} ])
    (Ok [ image_of_ocr (py "Hello"); image_of_ocr (py "World") ])
    (Ok (py "en")) (Raise (py "unused")) (Ok (py "Looks fine.")) no_font.

(** Text too short for the language detector. *)
Definition undetectable : World :=
  surroundings
    (Ok [ page_of_layer (Some (py "C")) ]) (Ok [])
    (Raise (py "No features in text.")) (Raise (py "unused"))
    (Ok (py "Looks fine.")) no_font.

Definition upload : bytes := [Byte.x25; Byte.x50; Byte.x44; Byte.x46].

(** The widgets of one run: a file, no job description, the button
    pressed. *)
Definition widgets (language analysis_depth : pystr) : Inputs :=
  mkInputs language analysis_depth (Some upload) [] true.

End Scenario.

(** * Vocabulary of the further properties *)

Section HandlerVocabulary.

Variable w : World.

(** Structured extraction does not return: the PDF does not open, a page
    raises, or the accumulated text is blank. *)
Definition no_direct_result (file : bytes) : Prop :=
  match pdfplumber_open w file with
  | Raise _ => True
  | Ok pages =>
      match snd (pages_loop pages []) with
      | Raise _ => True
      | Ok _ => Str.strip (fst (pages_loop pages [])) = []
      end
  end.

(** The value of the local [text] when the structured pass is left. *)
Definition accumulated_text (file : bytes) : pystr :=
  match pdfplumber_open w file with
  | Ok pages => fst (pages_loop pages [])
  | Raise _ => []
  end.

(** The exception that ended the structured pass, if one did. *)
Definition direct_failure (file : bytes) : option exn :=
  match pdfplumber_open w file with
  | Raise e => Some e
  | Ok pages =>
      match snd (pages_loop pages []) with
      | Raise e => Some e
      | Ok _ => None
      end
  end.

(** The structured pass returns its text. *)
Definition direct_result (file : bytes) : bool :=
  match direct_failure file with
  | Some _ => false
  | None => Str.truthy (Str.strip (accumulated_text file))
  end.

(** What extraction shows to the user. *)
Definition extraction_messages (file : bytes) : list event :=
  match direct_failure file with
  | Some e => [st_warning (py "Direct extraction failed: " ++ e)]
  | None => []
  end
  ++ (if direct_result file then []
      else match ocr_outputs w file with
           | Raise e => [st_error (py "OCR failed: " ++ e)]
           | Ok _ => []
           end).

(** Lines 209-218: the flat report. *)
Definition report_content (analysis joined_strengths joined_suggestions : pystr)
  : pystr :=
  Str.join Str.newline
    [ py "RESUME ANALYSIS REPORT";
      py "----------------------";
      py "ATS COMPLIANCE ANALYSIS:";
      py "Strengths: " ++ joined_strengths;
      py "Suggestions: " ++ joined_suggestions;
      [];
      py "DETAILED ANALYSIS:";
      analysis ].

(** Lines 221-232: both exports and their download buttons. *)
Definition export_reports (content : pystr) : M unit :=
  pdf_path <- generate_pdf_report w content "report.pdf" ;;
  offer_download pdf_path (py "Download PDF Report") (py "resume_analysis.pdf") ;;
  docx_path <- generate_word_report w content "report.docx" ;;
  offer_download docx_path (py "Download Word Report") (py "resume_analysis.docx").

(** Lines 191-232: what the handler does once both clients have answered. *)
Definition present_results (analysis : pystr) (ats_data : json) : M unit :=
  emit (st_success (py "Analysis Complete!")) ;;
  emit (st_subheader ([128203] ++ py " ATS Compliance Analysis")) ;;
  emit (st_write ([9989] ++ py " Strengths:")) ;;
  strengths <- subscript ats_data (py "strengths") ;;
  items <- iterate strengths ;;
  write_items w items ;;
  emit (st_write ([9888; 65039] ++ py " Improvements Needed:")) ;;
  suggestions <- subscript ats_data (py "suggestions") ;;
  items <- iterate suggestions ;;
  write_items w items ;;
  emit (st_subheader ([128221] ++ py " Detailed Analysis")) ;;
  emit (st_write analysis) ;;
  strengths <- subscript ats_data (py "strengths") ;;
  joined_strengths <- join_value (py ", ") strengths ;;
  suggestions <- subscript ats_data (py "suggestions") ;;
  joined_suggestions <- join_value (py ", ") suggestions ;;
  export_reports (report_content analysis joined_strengths joined_suggestions).

(** The document [generate_word_report] builds (lines 153-157). *)
Definition word_document (content : pystr) : list block :=
  Heading 0 (py "Resume Analysis Report")
  :: map Paragraph
       (filter (fun line => Str.truthy (Str.strip line)) (Str.split 10 content)).

End HandlerVocabulary.

(** What lines 191-206 show when both fields hold lists of strings. *)
Definition display_events (analysis : pystr) (strengths suggestions : list pystr)
  : list event :=
  [ st_success (py "Analysis Complete!");
    st_subheader ([128203] ++ py " ATS Compliance Analysis");
    st_write ([9989] ++ py " Strengths:") ]
  ++ map (fun s => st_write (py "- " ++ s)) strengths
  ++ [ st_write ([9888; 65039] ++ py " Improvements Needed:") ]
  ++ map (fun s => st_write (py "- " ++ s)) suggestions
  ++ [ st_subheader ([128221] ++ py " Detailed Analysis");
       st_write analysis ].

(** The value a dict holds under [key], if any. *)
Definition field (kvs : list (pystr * json)) (key : pystr) : option json :=
  snd <$> find (fun kv => bool_decide (fst kv = key)) kvs.

(** One of the seven characters [clean_text_for_pdf] replaces. *)
Definition is_replaced (c : N) : bool :=
  (c =? 8211) || (c =? 8212) || (c =? 8216) || (c =? 8217)
  || (c =? 8220) || (c =? 8221) || (c =? 8230).

(** The text of a paragraph block. *)
Definition paragraph_text (b : block) : option pystr :=
  match b with
  | Paragraph s => Some s
  | Heading _ _ => None
  end.

(** A computation that closes what it opens and leaves the scratch file as
    it is. *)
Definition tidy {A} (m : M A) : Prop :=
  forall st,
    handles (snd (m st)) = handles st
    /\ files (snd (m st)) !! "temp.pdf"%string = files st !! "temp.pdf"%string.

(** The disk after a library left a cache file, when it writes one. *)
Definition cached (path : string) (cache : option bytes) (fs : gmap string bytes)
  : gmap string bytes :=
  match cache with
  | Some data => <[path := data]> fs
  | None => fs
  end.

(** The user interface events of a trace. *)
Definition is_ui (e : event) : bool :=
  match e with
  | st_warning _ | st_error _ | st_success _ | st_subheader _ | st_write _
  | st_download_button _ _ _ => true
  | _ => false
  end.

Module Scenario2.

(** Neither parser can read the upload. *)
Definition unreadable : World :=
  Scenario.surroundings
    (Raise (py "No /Root object! - Is this really a PDF?"))
    (Raise (py "Unable to get page count."))
    (Ok (py "en")) (Raise (py "unused")) (Ok (py "Looks fine.")) Scenario.no_font.

(** The generative model is unreachable. *)
Definition offline_model : World :=
  {| pdfplumber_open := fun _ => Ok [ page_of_layer (Some (py "Python Developer")) ];
     convert_from_path := fun _ => Ok [];
     detect := fun _ => Ok (py "en");
     translate := fun _ _ _ => Raise (py "unused");
     generate_content := fun _ => Raise (py "503 Service Unavailable");
     json_loads := Scenario.loads_empty_object;
     py_str := fun _ => [];
     add_font_arial := Scenario.no_font;
     add_font_cache := None;
     output_cache := None;
     multi_cell := Scenario.latin1_only;
     fpdf_output := fun _ => Saved [Byte.x25; Byte.x50; Byte.x44; Byte.x46];
     docx_save := fun _ => Saved [Byte.x50; Byte.x4b] |}.

(** The Unicode font is installed, and FPDF caches its metrics beside it. *)
Definition with_arial : World :=
  {| pdfplumber_open := fun _ => Ok [ page_of_layer (Some (py "Python Developer")) ];
     convert_from_path := fun _ => Ok [];
     detect := fun _ => Ok (py "en");
     translate := fun _ _ _ => Raise (py "unused");
     generate_content := fun _ => Ok {| text := Ok (py "Looks fine.") |};
     json_loads := Scenario.loads_empty_object;
     py_str := fun _ => [];
     add_font_arial := Ok tt;
     add_font_cache := Some [Byte.x80; Byte.x03];
     output_cache := Some [Byte.x80; Byte.x03];
     multi_cell := Scenario.latin1_only;
     fpdf_output := fun _ => Saved [Byte.x25; Byte.x50; Byte.x44; Byte.x46];
     docx_save := fun _ => Saved [Byte.x50; Byte.x4b] |}.

End Scenario2.

(** * Properties *)

(** ** Strings *)

Module StrFacts.
Import Str.

Lemma lstrip_app (a b : pystr) :
  lstrip (a ++ b) = if blank a then lstrip b else lstrip a ++ b.
Proof.
  induction a as [|c a IH]; simpl; [reflexivity|].
  destruct (is_space c); simpl; [exact IH | reflexivity].
Qed.

Lemma lstrip_nil_blank (s : pystr) : lstrip s = [] -> blank s = true.
Proof.
  induction s as [|c s IH]; simpl; [reflexivity|].
  destruct (is_space c); simpl; [exact IH | discriminate].
Qed.

Lemma blank_lstrip (s : pystr) : blank s = true -> lstrip s = [].
Proof.
  induction s as [|c s IH]; simpl; [reflexivity|].
  destruct (is_space c); simpl; [exact IH | discriminate].
Qed.

Lemma blank_app (a b : pystr) : blank (a ++ b) = blank a && blank b.
Proof. apply forallb_app. Qed.

Lemma blank_rev (s : pystr) : blank (rev s) = blank s.
Proof.
  induction s as [|c s IH]; simpl; [reflexivity|].
  rewrite blank_app, IH. simpl. rewrite andb_true_r. apply andb_comm.
Qed.

(** What [lstrip] leaves starts with a character that is not a space. *)
Lemma lstrip_blank_nil (s : pystr) : blank (lstrip s) = true -> lstrip s = [].
Proof.
  induction s as [|c s IH]; simpl; [reflexivity|].
  destruct (is_space c) eqn:E; [exact IH|].
  simpl. rewrite E. discriminate.
Qed.

Lemma strip_nil_blank (s : pystr) : strip s = [] -> blank s = true.
Proof.
  unfold strip, rstrip. intros H.
  apply lstrip_nil_blank in H. rewrite blank_rev in H.
  apply lstrip_blank_nil in H.
  apply lstrip_nil_blank in H. rewrite blank_rev in H. exact H.
Qed.

Lemma blank_strip (s : pystr) : blank s = true -> strip s = [].
Proof.
  intros H. unfold strip, rstrip.
  rewrite (blank_lstrip (rev s)); [reflexivity|].
  rewrite blank_rev. exact H.
Qed.

(** Blank text in front of a string does not survive [strip]. *)
Lemma strip_blank_prefix (a s : pystr) :
  blank a = true -> strip (a ++ s) = strip s.
Proof.
  intros Ha. unfold strip, rstrip.
  rewrite rev_app_distr, lstrip_app.
  destruct (blank (rev s)) eqn:Es.
  - rewrite (blank_lstrip (rev a)) by (rewrite blank_rev; exact Ha).
    rewrite (blank_lstrip (rev s) Es). reflexivity.
  - rewrite rev_app_distr, rev_involutive, lstrip_app, Ha. reflexivity.
Qed.

Lemma truthy_false (s : pystr) : truthy s = false <-> s = [].
Proof. destruct s; simpl; split; congruence. Qed.

Lemma join_cons (sep p : pystr) (q : pystr) (rest : list pystr) :
  join sep (p :: q :: rest) = p ++ sep ++ join sep (q :: rest).
Proof. reflexivity. Qed.

End StrFacts.

(** ** The exception monad *)

Lemma bind_Ok {A B} (m : M A) (k : A -> M B) st a st' :
  m st = (Ok a, st') -> bind m k st = k a st'.
Proof. unfold bind. intros ->. reflexivity. Qed.

Lemma bind_Raise {A B} (m : M A) (k : A -> M B) st e st' :
  m st = (Raise e, st') -> bind m k st = (Raise e, st').
Proof. unfold bind. intros ->. reflexivity. Qed.

Lemma prompts_sent_app (t1 t2 : list event) :
  prompts_sent (t1 ++ t2) = prompts_sent t1 ++ prompts_sent t2.
Proof. apply omap_app. Qed.

(** ** Document extraction *)

Section Extraction.

Variable w : World.

Lemma save_upload_spec (file : bytes) (st : State) :
  save_upload file st
  = (Ok tt, mkState (<["temp.pdf"%string := file]> (files st)) (handles st) (trace st)).
Proof.
  unfold save_upload, bind, open_wb, write, close. simpl.
  rewrite lookup_insert_eq, insert_insert_eq. reflexivity.
Qed.

Lemma direct_extraction_spec (file : bytes) (st : State) :
  direct_extraction w file st
  = match pdfplumber_open w file with
    | Raise e => ([], Raise e, after_save file st)
    | Ok pages =>
        let text := fst (pages_loop pages []) in
        (text,
         match snd (pages_loop pages []) with
         | Raise e => Raise e
         | Ok _ =>
             if Str.truthy (Str.strip text)
             then Ok (Some (Str.strip text)) else Ok None
         end,
         after_save file st)
    end.
Proof.
  unfold direct_extraction. rewrite save_upload_spec.
  unfold bind, emit, open_rb, try_except, lift, close, raise, after_save. simpl.
  rewrite lookup_insert_eq. simpl.
  destruct (pdfplumber_open w file) as [pages|e]; simpl; [|reflexivity].
  destruct (pages_loop pages []) as [text r]. simpl.
  destruct r; [|reflexivity].
  destruct (Str.truthy (Str.strip text)); reflexivity.
Qed.

Lemma pages_loop_layers (layers : list (option pystr)) (acc : pystr) :
  pages_loop (map page_of_layer layers) acc = (acc ++ text_layer layers, Ok tt).
Proof.
  revert acc. induction layers as [|o layers IH]; intros acc; simpl.
  - unfold text_layer. simpl. rewrite app_nil_r. reflexivity.
  - rewrite IH. unfold text_layer. simpl.
    destruct o as [[|c s]|]; simpl; rewrite ?app_nil_r, <- ?app_assoc; reflexivity.
Qed.

Lemma ocr_loop_spec (images : list PILImage) (text : pystr) (st : State) :
  exists tr,
    ocr_loop images text st
    = (match collect_ocr images with
       | Ok outs => Ok (text ++ ocr_text outs)
       | Raise e => Raise e
       end, traced st tr)
    /\ prompts_sent tr = [] /\ forallb is_ocr_call tr = true.
Proof.
  revert text st. induction images as [|image rest IH]; intros text st; simpl.
  - exists []. unfold ret, traced, ocr_text. simpl. rewrite !app_nil_r.
    destruct st; auto.
  - unfold bind at 1 2. unfold emit, lift at 1. simpl.
    destruct (image_to_string image) as [s|e]; simpl.
    + match goal with |- context [ocr_loop rest ?t ?s0] =>
        destruct (IH t s0) as (tr & -> & Hp & Ho) end.
      exists (call_image_to_string :: tr). unfold traced. simpl.
      rewrite <- app_assoc. simpl. repeat split; [|auto|auto].
      destruct (collect_ocr rest); [|reflexivity].
      unfold ocr_text. simpl. rewrite <- !app_assoc. reflexivity.
    + exists [call_image_to_string]. unfold bind, traced. simpl. auto.
Qed.

(** The fallback always returns, and leaves the disk and the open handles
    as they are. *)
Lemma ocr_fallback_spec (file : bytes) (text : pystr) (st : State) :
  files st !! "temp.pdf"%string = Some file ->
  exists tr,
    ocr_fallback w text st = (Ok (fallback_text w file text), traced st tr)
    /\ prompts_sent tr = [].
Proof.
  intros Hfile. unfold ocr_fallback, try_except, fallback_text, ocr_outputs.
  unfold bind at 1 2. unfold emit, read_path at 1. simpl. rewrite Hfile.
  unfold bind at 1. unfold lift at 1.
  destruct (convert_from_path w file) as [images|e].
  - unfold bind at 1.
    match goal with |- context [ocr_loop images text ?s0] =>
      destruct (ocr_loop_spec images text s0) as (tr & -> & Hp & _) end.
    destruct (collect_ocr images) as [outs|e]; simpl.
    + exists (call_convert_from_path "temp.pdf" :: tr).
      unfold traced. simpl. rewrite <- app_assoc. simpl. auto.
    + eexists (call_convert_from_path "temp.pdf" :: tr ++ [st_error _]).
      unfold bind, emit, ret, traced. simpl. rewrite <- !app_assoc. simpl.
      split; [reflexivity|]. rewrite prompts_sent_app, Hp. reflexivity.
  - eexists [call_convert_from_path "temp.pdf"; st_error _].
    unfold bind, emit, ret, traced. simpl. rewrite <- !app_assoc. simpl.
    split; reflexivity.
Qed.

(** The whole extractor in one equation: it always returns
    [extracted_text], the upload stays on disk as [temp.pdf], every handle
    it opened is closed, and nothing is sent to the generative model. *)
Lemma extract_text_from_pdf_spec (file : bytes) (st : State) :
  exists tr,
    extract_text_from_pdf w file st
    = (Ok (extracted_text w file),
       mkState (<["temp.pdf"%string := file]> (files st)) (handles st)
               (trace st ++ call_pdfplumber_open "temp.pdf" :: tr))
    /\ prompts_sent tr = [].
Proof.
  unfold extract_text_from_pdf, extracted_text. rewrite direct_extraction_spec.
  assert (Hsaved : files (after_save file st) !! "temp.pdf"%string = Some file)
    by (simpl; apply lookup_insert_eq).
  assert (Hwarn : forall e text, exists tr,
    (emit (st_warning (py "Direct extraction failed: " ++ e)) ;;
     ocr_fallback w text)%py_m (after_save file st)
    = (Ok (fallback_text w file text),
       mkState (<["temp.pdf"%string := file]> (files st)) (handles st)
               (trace st ++ call_pdfplumber_open "temp.pdf" :: tr))
    /\ prompts_sent tr = []).
  { intros e text. unfold bind at 1. unfold emit at 1.
    match goal with |- context [ocr_fallback w text ?s0] =>
      destruct (ocr_fallback_spec file text s0 Hsaved) as (tr & -> & Hp) end.
    eexists (st_warning _ :: tr). unfold traced, after_save. simpl.
    rewrite <- !app_assoc. simpl. split; [reflexivity|exact Hp]. }
  destruct (pdfplumber_open w file) as [pages|e]; [|apply Hwarn].
  cbv zeta.
  destruct (snd (pages_loop pages [])) as [[]|e]; [|apply Hwarn].
  destruct (Str.truthy (Str.strip (fst (pages_loop pages [])))).
  - exists []. unfold after_save. auto.
  - destruct (ocr_fallback_spec file (fst (pages_loop pages [])) _ Hsaved)
      as (tr & -> & Hp).
    exists tr. unfold traced, after_save. simpl.
    rewrite <- !app_assoc. simpl. auto.
Qed.

End Extraction.

(** C2.  For every PDF whose per-page text layers, concatenated in page order,
    are non-blank after trimming, [extract_text_from_pdf] returns that
    concatenation trimmed, at once: the only library call it makes is the one
    that opens the PDF, so the OCR fallback is not exercised.  Pages without a
    text layer contribute nothing and do not stop the walk ([text_layer] skips
    them and still takes the pages after them). *)
Theorem extract_text_layer_preferred
        (w : World) (file : bytes) (layers : list (option pystr)) (st : State) :
  pdfplumber_open w file = Ok (map page_of_layer layers) ->
  Str.strip (text_layer layers) <> [] ->
  fst (extract_text_from_pdf w file st) = Ok (Str.strip (text_layer layers))
  /\ exists tr,
       trace (snd (extract_text_from_pdf w file st)) = trace st ++ tr
       /\ existsb is_ocr_call tr = false.
Proof.
  intros Hopen Hnonblank.
  unfold extract_text_from_pdf. rewrite direct_extraction_spec, Hopen.
  rewrite pages_loop_layers. cbn [fst snd app].
  destruct (Str.truthy (Str.strip (text_layer layers))) eqn:E.
  - split; [reflexivity|].
    exists [call_pdfplumber_open "temp.pdf"]. split; reflexivity.
  - apply StrFacts.truthy_false in E. contradiction.
Qed.

Lemma extract_text_layer_preferred_witness :
  let layers := [Some (py "Python Developer"); None;
                 Some (py " with 5 years experience" ++ [10])] in
  pdfplumber_open Scenario.text_pdf Scenario.upload = Ok (map page_of_layer layers)
  /\ Str.strip (text_layer layers) <> []
  /\ fst (extract_text_from_pdf Scenario.text_pdf Scenario.upload Scenario.fresh)
     = Ok (py "Python Developer with 5 years experience").
Proof.
  intros layers.
  assert (H1 : pdfplumber_open Scenario.text_pdf Scenario.upload
               = Ok (map page_of_layer layers)) by reflexivity.
  assert (H2 : Str.strip (text_layer layers) <> []) by (vm_compute; discriminate).
  split; [exact H1|]. split; [exact H2|].
  exact (proj1 (extract_text_layer_preferred
                  Scenario.text_pdf Scenario.upload layers Scenario.fresh H1 H2)).
Defined.

(** C3, as the code has it.  When structured extraction leaves nothing usable
    (the PDF does not open, or the text accumulated from its pages is blank)
    and rasterisation and OCR succeed on every page, [extract_text_from_pdf]
    returns the per-page OCR output, each page followed by a newline, in page
    order, trimmed of whitespace at both ends; when rasterisation or OCR
    raises it returns the empty string. *)
Theorem extract_ocr_fallback (w : World) (file : bytes) (st : State) :
  no_usable_text w file ->
  fst (extract_text_from_pdf w file st)
  = Ok (match ocr_outputs w file with
        | Ok outs => Str.strip (ocr_text outs)
        | Raise _ => []
        end).
Proof.
  intros Hno.
  destruct (extract_text_from_pdf_spec w file st) as (tr & -> & _).
  cbn [fst]. f_equal.
  unfold no_usable_text in Hno. unfold extracted_text, fallback_text.
  destruct (pdfplumber_open w file) as [pages|e]; [|reflexivity].
  cbv zeta. rewrite Hno. cbn [Str.truthy].
  assert (Hb : blank (fst (pages_loop pages [])) = true)
    by (apply StrFacts.strip_nil_blank; exact Hno).
  destruct (ocr_outputs w file) as [outs|e].
  - rewrite (StrFacts.strip_blank_prefix _ _ Hb).
    destruct (snd (pages_loop pages [])) as [[]|e']; reflexivity.
  - destruct (snd (pages_loop pages [])) as [[]|e']; reflexivity.
Qed.

Lemma extract_ocr_fallback_witness :
  no_usable_text Scenario.scanned_pdf Scenario.upload
  /\ fst (extract_text_from_pdf Scenario.scanned_pdf Scenario.upload Scenario.fresh)
     = Ok (py "A").
Proof.
  assert (H : no_usable_text Scenario.scanned_pdf Scenario.upload) by reflexivity.
  split; [exact H|].
  exact (extract_ocr_fallback Scenario.scanned_pdf Scenario.upload Scenario.fresh H).
Defined.

(** C3, as stated, fails on a one-page scan whose OCR output is [" A"]: trimming
    only trailing whitespace would give [" A"], the code returns ["A"]. *)
Lemma ocr_fallback_trims_both_ends :
  no_usable_text Scenario.scanned_pdf Scenario.upload
  /\ ocr_outputs Scenario.scanned_pdf Scenario.upload = Ok [py " A"]
  /\ Str.rstrip (Str.join Str.newline [py " A"]) = py " A"
  /\ fst (extract_text_from_pdf Scenario.scanned_pdf Scenario.upload Scenario.fresh)
     = Ok (py "A")
  /\ fst (extract_text_from_pdf Scenario.scanned_pdf Scenario.upload Scenario.fresh)
     <> Ok (Str.rstrip (Str.join Str.newline [py " A"])).
Proof.
  repeat split; try reflexivity.
  vm_compute. discriminate.
Qed.

(** Outside the theorem above: [text] is not reset before the fallback, so
    when a page raises after earlier pages gave text, that text stays in front
    of the OCR output. *)
Example partial_text_precedes_ocr_output :
  fst (extract_text_from_pdf Scenario.broken_page Scenario.upload Scenario.fresh)
  = Ok (py "HelloHello" ++ [10] ++ py "World").
Proof. vm_compute. reflexivity. Qed.

(** C4, as the code has it.  Whatever extraction does, when
    [extract_text_from_pdf] returns every file object it opened is closed
    again, and the scratch file [temp.pdf] is still on disk, holding the
    uploaded bytes; no other file is touched. *)
Theorem scratch_file_closed_and_kept (w : World) (file : bytes) (st : State) :
  handles (snd (extract_text_from_pdf w file st)) = handles st
  /\ files (snd (extract_text_from_pdf w file st))
     = <["temp.pdf"%string := file]> (files st)
  /\ files (snd (extract_text_from_pdf w file st)) !! "temp.pdf"%string = Some file.
Proof.
  destruct (extract_text_from_pdf_spec w file st) as (tr & -> & _).
  cbn [snd files handles]. repeat split. apply lookup_insert_eq.
Qed.

(** C4, as stated, fails: in a fresh working directory the scratch file does
    not exist before the call and exists after it. *)
Lemma scratch_file_not_removed :
  files Scenario.fresh !! "temp.pdf"%string = None
  /\ files (snd (extract_text_from_pdf Scenario.text_pdf Scenario.upload Scenario.fresh))
       !! "temp.pdf"%string = Some Scenario.upload
  /\ files (snd (extract_text_from_pdf Scenario.text_pdf Scenario.upload Scenario.fresh))
       !! "temp.pdf"%string <> None.
Proof.
  repeat split; try reflexivity.
  vm_compute. discriminate.
Qed.

(** ** Language normalisation *)

Lemma traced_nil (st : State) : traced st [] = st.
Proof. destruct st. unfold traced. simpl. rewrite app_nil_r. reflexivity. Qed.

Lemma detect_and_translate_spec (w : World) (text target : pystr) (st : State) :
  detect_and_translate w text target st
  = (Ok (normalized w text target), traced st (translate_calls w text target)).
Proof.
  unfold detect_and_translate, try_except, normalized, translate_calls.
  unfold bind at 1. unfold lift at 1.
  destruct (detect w text) as [src|e]; [|rewrite traced_nil; reflexivity].
  destruct (bool_decide (src <> target)); [|rewrite traced_nil; reflexivity].
  unfold bind, emit, lift, ret. simpl.
  destruct (translate w text src target); reflexivity.
Qed.

Lemma falls_back_normalized (w : World) (text target : pystr) :
  falls_back w text target -> normalized w text target = text.
Proof.
  unfold falls_back, normalized.
  destruct (detect w text) as [src|e]; [|reflexivity].
  intros [->|H].
  - rewrite bool_decide_eq_false_2 by (intros Hne; apply Hne; reflexivity).
    reflexivity.
  - destruct (bool_decide (src <> target)); [|reflexivity].
    destruct (translate w text src target); [discriminate|reflexivity].
Qed.

(** C5.  For every text and target language [detect_and_translate] returns a
    string and does not raise; and whenever detection raises, the detected
    language is the target, or the translation raises, what it returns is the
    text it was given. *)
Theorem detect_and_translate_never_raises
        (w : World) (text target : pystr) (st : State) :
  (exists s, fst (detect_and_translate w text target st) = Ok s)
  /\ (falls_back w text target ->
      fst (detect_and_translate w text target st) = Ok text).
Proof.
  rewrite detect_and_translate_spec. cbn [fst]. split.
  - eexists. reflexivity.
  - intros H. rewrite (falls_back_normalized _ _ _ H). reflexivity.
Qed.

Lemma detect_and_translate_never_raises_witness :
  falls_back Scenario.undetectable [] (py "en")
  /\ fst (detect_and_translate Scenario.undetectable [] (py "en") Scenario.fresh) = Ok [].
Proof.
  assert (H : falls_back Scenario.undetectable [] (py "en")) by exact I.
  split; [exact H|].
  exact (proj2 (detect_and_translate_never_raises
                  Scenario.undetectable [] (py "en") Scenario.fresh) H).
Defined.

(** ** Substrings *)

Lemma starts_with_spec (p s : pystr) :
  Str.starts_with p s = true <-> exists post, s = p ++ post.
Proof.
  revert s. induction p as [|a p IH]; intros s; simpl.
  - split; [intros _; exists s; reflexivity | reflexivity].
  - destruct s as [|b s]; simpl.
    + split; [discriminate | intros [post H]; discriminate].
    + rewrite andb_true_iff, N.eqb_eq, IH. split.
      * intros [-> [post ->]]. exists post. reflexivity.
      * intros [post H]. injection H as -> ->. split; [reflexivity|].
        exists post. reflexivity.
Qed.

Lemma contains_spec (p s : pystr) :
  Str.contains p s = true <-> exists pre post, s = pre ++ p ++ post.
Proof.
  induction s as [|c s IH].
  - cbn [Str.contains]. rewrite orb_false_r, starts_with_spec. split.
    + intros [post H]. exists [], post. exact H.
    + intros [pre [post H]]. destruct pre as [|x pre]; [|discriminate].
      exists post. exact H.
  - cbn [Str.contains]. rewrite orb_true_iff, starts_with_spec, IH. split.
    + intros [[post H]|[pre [post H]]].
      * exists [], post. exact H.
      * exists (c :: pre), post. rewrite H. reflexivity.
    + intros [pre [post H]]. destruct pre as [|x pre].
      * left. exists post. exact H.
      * right. injection H as _ H. exists pre, post. exact H.
Qed.

(** ** The two clients *)

Lemma analyze_resume_spec (w : World) (resume_text : pystr)
      (job_description : option pystr) (language : pystr) (st : State) :
  let prompt :=
    Str.join Str.newline
      (analyze_prompt (normalized w resume_text (py "en")) job_description language) in
  analyze_resume w resume_text job_description language st
  = (reply w prompt,
     traced st (translate_calls w resume_text (py "en") ++ [call_generate_content prompt])).
Proof.
  intros prompt. unfold analyze_resume.
  unfold bind at 1. rewrite detect_and_translate_spec.
  fold prompt. unfold bind, emit, lift, reply. simpl.
  unfold traced. simpl. rewrite <- app_assoc.
  destruct (generate_content w prompt) as [response|e]; [|reflexivity].
  destruct (text response); reflexivity.
Qed.

Lemma check_ats_compliance_spec (w : World) (resume_text : pystr) (st : State) :
  check_ats_compliance w resume_text st
  = (Ok (compliance_value w resume_text),
     traced st [call_generate_content (ats_prompt resume_text)]).
Proof.
  unfold check_ats_compliance, compliance_value, reply, try_except.
  unfold bind, emit, lift, ret, traced. simpl.
  destruct (generate_content w (ats_prompt resume_text)) as [response|e]; [|reflexivity].
  destruct (text response) as [t|e]; [|reflexivity].
  destruct (json_loads w t); reflexivity.
Qed.

(** The defined fallback: when the request errors or the reply is not valid
    JSON, the result is the record of three empty lists. *)
Lemma check_ats_compliance_fallback (w : World) (resume_text : pystr) (st : State) :
  no_structured_reply w (ats_prompt resume_text) ->
  fst (check_ats_compliance w resume_text st) = Ok empty_compliance
  /\ is_compliance_record empty_compliance = true.
Proof.
  intros H. rewrite check_ats_compliance_spec. cbn [fst].
  split; [|reflexivity]. f_equal.
  unfold no_structured_reply in H. unfold compliance_value.
  destruct (reply w (ats_prompt resume_text)) as [t|e]; [|reflexivity].
  destruct (json_loads w t); [discriminate|reflexivity].
Qed.

Lemma ats_prompt_split (resume_text : pystr) :
  ats_prompt resume_text = ats_instructions ++ take 2000 resume_text.
Proof.
  unfold ats_instructions, ats_prompt. cbn [Str.join].
  rewrite take_nil, app_nil_r, <- !app_assoc. reflexivity.
Qed.

(** C1 fails on a reply that is valid JSON of another shape: for the reply
    [{}] the function returns the empty dict, which has none of the three
    fields, and the handler then stops on [ats_data['strengths']]. *)
Theorem check_ats_compliance_returns_reply_unvalidated :
  reply Scenario.terse_model (ats_prompt (py "Python Developer")) = Ok (py "{}")
  /\ fst (check_ats_compliance Scenario.terse_model (py "Python Developer") Scenario.fresh)
     = Ok (JDict [])
  /\ is_compliance_record (JDict []) = false
  /\ fst (run_script Scenario.terse_model
                     (Scenario.widgets (py "en") (py "Basic")) Scenario.fresh)
     = Raise (py "'strengths'").
Proof. repeat split; vm_compute; reflexivity. Qed.

(** C7.  The prompt [check_ats_compliance] sends is the fixed instructions
    followed by the first 2000 characters of the resume text, and by nothing
    else; these are the whole text exactly when it has at most 2000
    characters. *)
Theorem ats_prompt_truncates (w : World) (resume_text : pystr) (st : State) :
  prompts_sent (trace (snd (check_ats_compliance w resume_text st)))
  = prompts_sent (trace st) ++ [ats_instructions ++ take 2000 resume_text]
  /\ length (take 2000 resume_text) = Nat.min 2000 (length resume_text)
  /\ resume_text = take 2000 resume_text ++ drop 2000 resume_text
  /\ (take 2000 resume_text = resume_text <-> (length resume_text <= 2000)%nat).
Proof.
  rewrite check_ats_compliance_spec. cbn [snd traced trace].
  rewrite prompts_sent_app, ats_prompt_split. cbn [prompts_sent omap].
  split; [reflexivity|]. split; [apply length_take|].
  split; [symmetry; apply take_drop|]. split.
  - intros H. rewrite <- H, length_take. lia.
  - intros H. apply take_ge. exact H.
Qed.

(** C6, as the code has it.  For every resume text, job description and
    language argument, the prompt [analyze_resume] sends is its list of lines
    joined by newlines, where: the line "1. Skills Summary (Technical & Soft
    Skills)" is present; the text after "Resume:" is the normalised text
    [detect_and_translate(resume_text, 'en')], not necessarily the literal
    resume text; the fifth numbered item is "Job Fit Analysis" when a
    non-empty job description is supplied and "General Career Advice"
    otherwise; and after the nine base lines comes the comparison section
    with its three sub-prompts exactly when a non-empty job description is
    supplied. *)
Theorem analyze_resume_prompt_shape
        (w : World) (resume_text : pystr) (job_description : option pystr)
        (language : pystr) (st : State) :
  let translated_text := normalized w resume_text (py "en") in
  let lines := analyze_prompt translated_text job_description language in
  let supplied := Str.truthy_opt job_description in
  fst (detect_and_translate w resume_text (py "en") st) = Ok translated_text
  /\ prompts_sent (trace (snd (analyze_resume w resume_text job_description language st)))
     = prompts_sent (trace st) ++ [Str.join Str.newline lines]
  /\ (exists pre post,
        Str.join Str.newline lines
        = pre ++ Str.newline ++ py "1. Skills Summary (Technical & Soft Skills)"
              ++ Str.newline ++ post)
  /\ (exists pre post,
        Str.join Str.newline lines
        = pre ++ Str.newline ++ py "Resume:" ++ Str.newline ++ translated_text ++ post)
  /\ lines !! 5%nat
     = Some (py "5. " ++ (if supplied then py "Job Fit Analysis"
                          else py "General Career Advice"))
  /\ length (take 9 lines) = 9%nat
  /\ lines !! 8%nat = Some translated_text
  /\ drop 9 lines
     = if supplied
       then [ []; py "Job Description:"; default [] job_description; [];
              py "Compare and highlight:";
              py "- Matching qualifications";
              py "- Missing requirements";
              py "- Suggested adaptations" ]
       else [].
Proof.
  intros translated_text lines supplied.
  split; [rewrite detect_and_translate_spec; reflexivity|].
  split.
  { rewrite analyze_resume_spec. cbn [snd traced trace].
    rewrite !prompts_sent_app. fold translated_text. fold lines.
    assert (Hq : prompts_sent (translate_calls w resume_text (py "en")) = []).
    { unfold translate_calls. destruct (detect w resume_text) as [src|e]; [|reflexivity].
      destruct (bool_decide (src <> py "en")); reflexivity. }
    rewrite Hq. reflexivity. }
  subst lines supplied. split.
  { exists (framing language). eexists.
    unfold analyze_prompt. cbn [app]. rewrite !StrFacts.join_cons. unfold framing.
    rewrite <- !app_assoc. reflexivity. }
  split.
  { exists (Str.join Str.newline
              (take 7 (analyze_prompt translated_text job_description language))).
    exists (match drop 9 (analyze_prompt translated_text job_description language) with
            | [] => []
            | rest => Str.newline ++ Str.join Str.newline rest
            end).
    unfold analyze_prompt.
    destruct (Str.truthy_opt job_description);
      cbn [app firstn skipn Str.join]; rewrite <- !app_assoc;
      cbn [app]; rewrite ?app_nil_r; reflexivity. }
  unfold analyze_prompt.
  destruct (Str.truthy_opt job_description); repeat split; reflexivity.
Qed.

(** C6, as stated, fails on a resume that gets translated: the Spanish text
    ["Hola"] is sent as ["Hello"], and the literal resume text occurs nowhere
    in the prompt. *)
Lemma translated_resume_not_in_prompt :
  exists prompt,
    prompts_sent
      (trace (snd (analyze_resume Scenario.spanish_pdf (py "Hola") None (py "es")
                                  Scenario.fresh)))
    = [prompt]
    /\ Str.contains (py "Hello") prompt = true
    /\ ~ (exists pre post, prompt = pre ++ py "Hola" ++ post).
Proof.
  eexists. split; [vm_compute; reflexivity|].
  split; [vm_compute; reflexivity|].
  intros H. apply contains_spec in H. vm_compute in H. discriminate H.
Qed.

(** ** Computations that send no prompt *)

Lemma quiet_ret {A} (a : A) : quiet (ret a).
Proof. intros st. reflexivity. Qed.

Lemma quiet_raise {A} (e : exn) : quiet (@raise A e).
Proof. intros st. reflexivity. Qed.

Lemma quiet_lift {A} (r : result A) : quiet (lift r).
Proof. intros st. reflexivity. Qed.

Lemma quiet_bind {A B} (m : M A) (k : A -> M B) :
  quiet m -> (forall a, quiet (k a)) -> quiet (bind m k).
Proof.
  intros Hm Hk st. unfold bind. specialize (Hm st).
  destruct (m st) as [[a|e] st']; cbn [snd] in *.
  - rewrite Hk. exact Hm.
  - exact Hm.
Qed.

Lemma quiet_try_except {A} (m : M A) (h : exn -> M A) :
  quiet m -> (forall e, quiet (h e)) -> quiet (try_except m h).
Proof.
  intros Hm Hh st. unfold try_except. specialize (Hm st).
  destruct (m st) as [[a|e] st']; cbn [snd] in *.
  - exact Hm.
  - rewrite Hh. exact Hm.
Qed.

Lemma quiet_emit (e : event) : prompts_sent [e] = [] -> quiet (emit e).
Proof.
  intros He st. unfold emit. cbn [snd trace].
  rewrite prompts_sent_app, He. apply app_nil_r.
Qed.

Lemma quiet_open_rb (path : string) : quiet (open_rb path).
Proof. intros st. unfold open_rb. destruct (files st !! path); reflexivity. Qed.

Lemma quiet_close (path : string) : quiet (close path).
Proof. intros st. reflexivity. Qed.

Lemma quiet_save_to (path : string) (s : saved) : quiet (save_to path s).
Proof. intros st. destruct s as [data|[data|] e]; reflexivity. Qed.

Lemma quiet_subscript (obj : json) (key : pystr) : quiet (subscript obj key).
Proof.
  destruct obj; try apply quiet_raise. unfold subscript.
  destruct (find _ kvs); [apply quiet_ret | apply quiet_raise].
Qed.

Lemma quiet_iterate (obj : json) : quiet (iterate obj).
Proof. destruct obj; first [apply quiet_raise | apply quiet_ret]. Qed.

Lemma quiet_all_str (i : nat) (items : list json) : quiet (all_str i items).
Proof.
  revert i. induction items as [|item rest IH]; intros i; [apply quiet_ret|].
  destruct item; try apply quiet_raise.
  cbn [all_str]. apply quiet_bind; [apply IH | intros; apply quiet_ret].
Qed.

Lemma quiet_leave_cache (path : string) (cache : option bytes) :
  quiet (leave_cache path cache).
Proof. intros st. destruct cache; reflexivity. Qed.

Lemma quiet_output (w : World) (pdf : FPDF) (filename : string) :
  quiet (output w pdf filename).
Proof.
  unfold output. apply quiet_bind; [|intros; apply quiet_save_to].
  destruct (current_font pdf) as [[]|];
    first [apply quiet_leave_cache | apply quiet_ret].
Qed.

Lemma quiet_write_items (w : World) (items : list json) : quiet (write_items w items).
Proof.
  induction items as [|item rest IH]; [apply quiet_ret|].
  cbn [write_items]. apply quiet_bind; [apply quiet_emit; reflexivity | intros; exact IH].
Qed.

Create HintDb quiet.

#[local] Hint Resolve quiet_ret quiet_raise quiet_lift quiet_open_rb quiet_close
  quiet_save_to quiet_subscript quiet_iterate quiet_all_str quiet_write_items
  quiet_leave_cache quiet_output : quiet.

(** Peel binds and handlers, then close the leaves from the hint base. *)
Ltac solve_quiet :=
  repeat first
    [ progress intros
    | progress cbv zeta
    | apply quiet_bind
    | apply quiet_try_except
    | apply quiet_emit; reflexivity
    | solve [auto with quiet]
    | match goal with |- quiet (let '(_, _) := ?p in _) => destruct p end
    | match goal with |- quiet (match ?p with Some _ => _ | None => _ end) => destruct p end
    | match goal with |- quiet (match ?p with Arial => _ | Helvetica => _ end) => destruct p end ].

Lemma quiet_join_value (sep : pystr) (obj : json) : quiet (join_value sep obj).
Proof. unfold join_value. solve_quiet. Qed.

Lemma quiet_offer_download (path : option string) (label file_name : pystr) :
  quiet (offer_download path label file_name).
Proof. unfold offer_download. solve_quiet. Qed.

Lemma quiet_generate_pdf_report (w : World) (content : pystr) (filename : string) :
  quiet (generate_pdf_report w content filename).
Proof. unfold generate_pdf_report. solve_quiet. Qed.

Lemma quiet_generate_word_report (w : World) (content : pystr) (filename : string) :
  quiet (generate_word_report w content filename).
Proof. unfold generate_word_report. solve_quiet. Qed.

#[local] Hint Resolve quiet_join_value quiet_offer_download
  quiet_generate_pdf_report quiet_generate_word_report : quiet.

(** ** The handler *)






(** ** Report rendering *)

Lemma replace_single (k : N) (v s : pystr) :
  Str.replace [k] v s = flat_map (fun c => if c =? k then v else [c]) s.
Proof.
  unfold Str.replace.
  induction s as [|c s IH]; [reflexivity|].
  cbn [Str.replace_scan Str.starts_with length Nat.pred flat_map].
  rewrite andb_true_r, (N.eqb_sym k c).
  destruct (c =? k); rewrite IH; reflexivity.
Qed.

Lemma clean_text_for_pdf_unfold (s : pystr) :
  clean_text_for_pdf s
  = flat_map (fun c => if c =? 8230 then py "..." else [c])
      (flat_map (fun c => if c =? 8221 then [34] else [c])
         (flat_map (fun c => if c =? 8220 then [34] else [c])
            (flat_map (fun c => if c =? 8217 then py "'" else [c])
               (flat_map (fun c => if c =? 8216 then py "'" else [c])
                  (flat_map (fun c => if c =? 8212 then py "-" else [c])
                     (flat_map (fun c => if c =? 8211 then py "-" else [c]) s)))))).
Proof.
  unfold clean_text_for_pdf, replacements. cbn [fold_left fst snd].
  rewrite !replace_single. reflexivity.
Qed.

Lemma clean_text_for_pdf_app (a b : pystr) :
  clean_text_for_pdf (a ++ b) = clean_text_for_pdf a ++ clean_text_for_pdf b.
Proof. rewrite !clean_text_for_pdf_unfold, !flat_map_app. reflexivity. Qed.

Lemma clean_text_for_pdf_char (c : N) :
  clean_text_for_pdf [c] = ascii_equivalent c.
Proof.
  unfold ascii_equivalent.
  destruct (N.eqb_spec c 8211) as [->|H1]; [reflexivity|].
  destruct (N.eqb_spec c 8212) as [->|H2]; [reflexivity|].
  destruct (N.eqb_spec c 8216) as [->|H3]; [reflexivity|].
  destruct (N.eqb_spec c 8217) as [->|H4]; [reflexivity|].
  destruct (N.eqb_spec c 8220) as [->|H5]; [reflexivity|].
  destruct (N.eqb_spec c 8221) as [->|H6]; [reflexivity|].
  destruct (N.eqb_spec c 8230) as [->|H7]; [reflexivity|].
  apply N.eqb_neq in H1, H2, H3, H4, H5, H6, H7.
  rewrite clean_text_for_pdf_unfold.
  cbn [flat_map app]. rewrite H1.
  cbn [flat_map app]. rewrite H2.
  cbn [flat_map app]. rewrite H3.
  cbn [flat_map app]. rewrite H4.
  cbn [flat_map app]. rewrite H5.
  cbn [flat_map app]. rewrite H6.
  cbn [flat_map app]. rewrite H7.
  reflexivity.
Qed.

(** The seven replacements amount to one pass that swaps each character for
    its ASCII stand-in. *)
Lemma clean_text_for_pdf_pointwise (s : pystr) :
  clean_text_for_pdf s = flat_map ascii_equivalent s.
Proof.
  induction s as [|c s IH]; [reflexivity|].
  change (c :: s) with ([c] ++ s).
  rewrite clean_text_for_pdf_app, clean_text_for_pdf_char, IH. reflexivity.
Qed.

(** C9, as the code has it.  When loading the Unicode font fails,
    [generate_pdf_report] hands FPDF, under the base font, the input with en
    and em dash, curly single and double quotes and the ellipsis replaced by
    their ASCII stand-ins ("don’t" becomes "don't").  If FPDF accepts that text
    and writes the document, the output file holds exactly that document and
    the file name is returned; if FPDF raises, the error "PDF generation
    failed: ..." is shown and [None] is returned instead. *)
Theorem generate_pdf_report_fallback
        (w : World) (content : pystr) (filename : string) (st : State) (e : exn) :
  add_font_arial w = Raise e ->
  let cleaned := flat_map ascii_equivalent content in
  let doc := mkFPDF (Some Helvetica) [cleaned] in
  clean_text_for_pdf content = cleaned
  /\ match multi_cell w (Some Helvetica) cleaned with
     | Raise e1 =>
         generate_pdf_report w content filename st
         = (Ok None,
            mkState (files st) (handles st)
                    (trace st ++ [st_error (py "PDF generation failed: " ++ e1)]))
     | Ok _ =>
         match fpdf_output w doc with
         | Saved data =>
             generate_pdf_report w content filename st
             = (Ok (Some filename),
                mkState (<[filename := data]> (files st)) (handles st) (trace st))
         | NotSaved _ e2 =>
             fst (generate_pdf_report w content filename st) = Ok None
             /\ trace (snd (generate_pdf_report w content filename st))
                = trace st ++ [st_error (py "PDF generation failed: " ++ e2)]
         end
     end
  /\ clean_text_for_pdf (py "don" ++ [8217] ++ py "t") = py "don't".
Proof.
  intros Hfont cleaned doc.
  split; [apply clean_text_for_pdf_pointwise|].
  split; [|reflexivity].
  unfold generate_pdf_report, output, try_except, bind, lift, ret, save_to, emit,
    set_font.
  rewrite Hfont. cbn [current_font cells app fst snd].
  rewrite clean_text_for_pdf_pointwise. fold cleaned. fold doc.
  destruct (multi_cell w (Some Helvetica) cleaned) as [[]|e1]; [|reflexivity].
  destruct (fpdf_output w doc) as [data|[data|] e2]; [reflexivity| |];
    split; reflexivity.
Qed.

Lemma generate_pdf_report_fallback_witness :
  add_font_arial Scenario.text_pdf = Raise (py "TTF Font file not found")
  /\ fst (generate_pdf_report Scenario.text_pdf (py "don" ++ [8217] ++ py "t")
                              "report.pdf" Scenario.fresh)
     = Ok (Some "report.pdf"%string).
Proof.
  assert (H : add_font_arial Scenario.text_pdf = Raise (py "TTF Font file not found"))
    by reflexivity.
  split; [exact H|].
  exact (f_equal fst
           (proj1 (proj2 (generate_pdf_report_fallback
                            Scenario.text_pdf (py "don" ++ [8217] ++ py "t")
                            "report.pdf" Scenario.fresh _ H)))).
Defined.

(** C9, as stated, fails on text with a character that is neither Latin-1 nor
    one of the seven replaced ones: a bullet (U+2022) survives the cleaning,
    the base font refuses it, and no file is produced. *)
Lemma pdf_fallback_refuses_other_characters :
  add_font_arial Scenario.text_pdf = Raise (py "TTF Font file not found")
  /\ clean_text_for_pdf [8226] = [8226]
  /\ fst (generate_pdf_report Scenario.text_pdf [8226] "report.pdf" Scenario.fresh)
     = Ok None
  /\ files (snd (generate_pdf_report Scenario.text_pdf [8226] "report.pdf"
                                     Scenario.fresh))
       !! "report.pdf"%string = None.
Proof. repeat split; vm_compute; reflexivity. Qed.

(** * Further properties *)

(** ** More on strings *)

Module StrMore.
Import Str.

Lemma lstrip_idem (s : pystr) : lstrip (lstrip s) = lstrip s.
Proof.
  induction s as [|c s IH]; [reflexivity|].
  cbn [lstrip]. destruct (is_space c) eqn:E; [exact IH|].
  cbn [lstrip]. rewrite E. reflexivity.
Qed.

Lemma lstrip_split (s : pystr) :
  exists a, s = a ++ lstrip s /\ blank a = true.
Proof.
  induction s as [|c s (a & Ha & Hb)]; [exists []; auto|].
  cbn [lstrip]. destruct (is_space c) eqn:E.
  - exists (c :: a). split; [cbn; f_equal; exact Ha|].
    unfold blank. cbn. rewrite E. exact Hb.
  - exists []. auto.
Qed.

Lemma rstrip_idem (s : pystr) : rstrip (rstrip s) = rstrip s.
Proof. unfold rstrip. rewrite rev_involutive, lstrip_idem. reflexivity. Qed.

Lemma rstrip_lstrip (u : pystr) : rstrip u = u -> rstrip (lstrip u) = lstrip u.
Proof.
  unfold rstrip. intros Hu.
  assert (Hrev : lstrip (rev u) = rev u).
  { rewrite <- (rev_involutive (lstrip (rev u))), Hu. reflexivity. }
  destruct (lstrip_split u) as (a & Ha & Hb).
  rewrite Ha, rev_app_distr, StrFacts.lstrip_app in Hrev.
  destruct (blank (rev (lstrip u))) eqn:E.
  - rewrite StrFacts.blank_rev in E.
    rewrite (StrFacts.lstrip_blank_nil u E). reflexivity.
  - apply app_inv_tail in Hrev. rewrite Hrev. apply rev_involutive.
Qed.

Lemma strip_idem (s : pystr) : strip (strip s) = strip s.
Proof.
  unfold strip.
  rewrite (rstrip_lstrip (rstrip s) (rstrip_idem s)).
  apply lstrip_idem.
Qed.

Lemma split_cons (sep : N) (s : pystr) : exists h t, split sep s = h :: t.
Proof.
  induction s as [|c s (h & t & IH)]; [exists [], []; reflexivity|].
  cbn [split]. destruct (c =? sep); [eauto|]. rewrite IH. eauto.
Qed.

(** [sep.join(s.split(sep)) == s] *)
Lemma join_split (sep : N) (s : pystr) : join [sep] (split sep s) = s.
Proof.
  induction s as [|c s IH]; [reflexivity|].
  cbn [split]. destruct (split_cons sep s) as (h & t & E).
  destruct (N.eqb_spec c sep) as [->|Hne].
  - rewrite E, StrFacts.join_cons, <- E, IH. reflexivity.
  - rewrite E in *. destruct t as [|h' t].
    + cbn [join] in *. congruence.
    + rewrite StrFacts.join_cons in IH. rewrite StrFacts.join_cons, <- IH.
      reflexivity.
Qed.

Lemma split_no_sep (sep : N) (s : pystr) :
  Forall (fun line => ~ In sep line) (split sep s).
Proof.
  induction s as [|c s IH]; [repeat constructor; auto|].
  cbn [split]. destruct (N.eqb_spec c sep) as [->|Hne].
  - constructor; [intros []|exact IH].
  - destruct (split sep s) as [|h t]; [repeat constructor; intros [H|[]]; congruence|].
    inversion IH as [|? ? Hh Ht]; subst. constructor; [|exact Ht].
    intros [H|H]; [congruence|contradiction].
Qed.

End StrMore.

(** ** More on extraction *)

Section ExtractionMore.

Variable w : World.

Lemma ocr_calls_not_ui (tr : list event) :
  forallb is_ocr_call tr = true -> List.filter is_ui tr = [].
Proof.
  induction tr as [|e tr IH]; [reflexivity|].
  cbn [forallb List.filter]. intros H. apply andb_true_iff in H as [He Htr].
  destruct e; try discriminate He; cbn [is_ui]; auto.
Qed.

Lemma ocr_fallback_ui (file : bytes) (text : pystr) (st : State) :
  files st !! "temp.pdf"%string = Some file ->
  exists tr,
    ocr_fallback w text st = (Ok (fallback_text w file text), traced st tr)
    /\ List.filter is_ui tr
       = match ocr_outputs w file with
         | Raise e => [st_error (py "OCR failed: " ++ e)]
         | Ok _ => []
         end.
Proof.
  intros Hfile. unfold ocr_fallback, try_except, fallback_text, ocr_outputs.
  unfold bind at 1 2. unfold emit, read_path at 1. simpl. rewrite Hfile.
  unfold bind at 1. unfold lift at 1.
  destruct (convert_from_path w file) as [images|e].
  - unfold bind at 1.
    match goal with |- context [ocr_loop images text ?s0] =>
      destruct (ocr_loop_spec images text s0) as (tr & -> & _ & Ho) end.
    apply ocr_calls_not_ui in Ho.
    destruct (collect_ocr images) as [outs|e]; simpl.
    + exists (call_convert_from_path "temp.pdf" :: tr).
      unfold traced. simpl. rewrite <- app_assoc. simpl. auto.
    + eexists (call_convert_from_path "temp.pdf" :: tr ++ [st_error _]).
      unfold bind, emit, ret, traced. simpl. rewrite <- !app_assoc. simpl.
      split; [reflexivity|]. rewrite List.filter_app, Ho. reflexivity.
  - eexists [call_convert_from_path "temp.pdf"; st_error _].
    unfold bind, emit, ret, traced. simpl. rewrite <- !app_assoc. simpl.
    split; reflexivity.
Qed.

(** The extractor in one equation, with what it shows. *)
Lemma extract_text_from_pdf_ui (file : bytes) (st : State) :
  exists tr,
    extract_text_from_pdf w file st
    = (Ok (if direct_result w file then Str.strip (accumulated_text w file)
           else fallback_text w file (accumulated_text w file)),
       mkState (<["temp.pdf"%string := file]> (files st)) (handles st)
               (trace st ++ tr))
    /\ List.filter is_ui tr = extraction_messages w file.
Proof.
  unfold extract_text_from_pdf, extraction_messages, direct_result,
    direct_failure, accumulated_text.
  rewrite direct_extraction_spec.
  assert (Hsaved : files (after_save file st) !! "temp.pdf"%string = Some file)
    by (simpl; apply lookup_insert_eq).
  assert (Hwarn : forall e text, exists tr,
    (emit (st_warning (py "Direct extraction failed: " ++ e)) ;;
     ocr_fallback w text)%py_m (after_save file st)
    = (Ok (fallback_text w file text),
       mkState (<["temp.pdf"%string := file]> (files st)) (handles st)
               (trace st ++ tr))
    /\ List.filter is_ui tr
       = [st_warning (py "Direct extraction failed: " ++ e)]
         ++ match ocr_outputs w file with
            | Raise e' => [st_error (py "OCR failed: " ++ e')]
            | Ok _ => []
            end).
  { intros e text. unfold bind at 1. unfold emit at 1.
    match goal with |- context [ocr_fallback w text ?s0] =>
      destruct (ocr_fallback_ui file text s0 Hsaved) as (tr & -> & Hp) end.
    eexists (call_pdfplumber_open "temp.pdf" :: st_warning _ :: tr).
    unfold traced, after_save. simpl.
    rewrite <- !app_assoc. simpl. split; [reflexivity|]. rewrite Hp. reflexivity. }
  destruct (pdfplumber_open w file) as [pages|e]; [|apply Hwarn].
  cbv zeta.
  destruct (snd (pages_loop pages [])) as [[]|e]; [|apply Hwarn].
  destruct (Str.truthy (Str.strip (fst (pages_loop pages [])))).
  - exists [call_pdfplumber_open "temp.pdf"]. unfold after_save. auto.
  - destruct (ocr_fallback_ui file (fst (pages_loop pages [])) _ Hsaved)
      as (tr & -> & Hp).
    exists (call_pdfplumber_open "temp.pdf" :: tr). unfold traced, after_save. simpl.
    rewrite <- !app_assoc. simpl. auto.
Qed.

End ExtractionMore.

(** X1.  [extract_text_from_pdf] never raises, and what it returns is
    already trimmed: stripping it again changes nothing. *)
Theorem extract_result_is_trimmed (w : World) (file : bytes) (st : State) :
  exists r,
    fst (extract_text_from_pdf w file st) = Ok r /\ Str.strip r = r.
Proof.
  destruct (extract_text_from_pdf_ui w file st) as (tr & -> & _).
  eexists. split; [reflexivity|].
  unfold fallback_text.
  destruct (direct_result w file); [apply StrMore.strip_idem|].
  destruct (ocr_outputs w file); [apply StrMore.strip_idem|reflexivity].
Qed.

(** X2.  When the structured pass does not return (the PDF does not open, a
    page raises, or the text read is blank), the result is the text read so
    far followed by the OCR output of every page, each page followed by a
    newline, trimmed at both ends: text read before a page raised stays in
    front of the OCR text.  If rasterisation or OCR raises, the result is the
    empty string and the text read so far is dropped. *)
Theorem extract_fallback_result (w : World) (file : bytes) (st : State) :
  no_direct_result w file ->
  fst (extract_text_from_pdf w file st)
  = Ok (match ocr_outputs w file with
        | Ok outs => Str.strip (accumulated_text w file ++ ocr_text outs)
        | Raise _ => []
        end).
Proof.
  intros Hno.
  destruct (extract_text_from_pdf_ui w file st) as (tr & -> & _).
  cbn [fst]. f_equal.
  assert (Hd : direct_result w file = false).
  { unfold no_direct_result in Hno.
    unfold direct_result, direct_failure, accumulated_text.
    destruct (pdfplumber_open w file) as [pages|e]; [|reflexivity].
    destruct (snd (pages_loop pages [])); [|reflexivity].
    rewrite Hno. reflexivity. }
  rewrite Hd. reflexivity.
Qed.

Lemma extract_fallback_result_witness :
  no_direct_result Scenario.broken_page Scenario.upload
  /\ fst (extract_text_from_pdf Scenario.broken_page Scenario.upload Scenario.fresh)
     = Ok (py "HelloHello" ++ [10] ++ py "World").
Proof.
  assert (H : no_direct_result Scenario.broken_page Scenario.upload) by exact I.
  split; [exact H|].
  exact (extract_fallback_result Scenario.broken_page Scenario.upload Scenario.fresh H).
Defined.

(** X3.  What extraction shows to the user: a warning "Direct extraction
    failed: ..." exactly when opening the PDF or reading a page raised, then an
    error "OCR failed: ..." exactly when the fallback was entered and raised;
    nothing else. *)
Theorem extract_messages (w : World) (file : bytes) (st : State) :
  exists tr,
    trace (snd (extract_text_from_pdf w file st)) = trace st ++ tr
    /\ List.filter is_ui tr
       = match direct_failure w file with
         | Some e => [st_warning (py "Direct extraction failed: " ++ e)]
         | None => []
         end
         ++ (if direct_result w file then []
             else match ocr_outputs w file with
                  | Raise e => [st_error (py "OCR failed: " ++ e)]
                  | Ok _ => []
                  end).
Proof.
  destruct (extract_text_from_pdf_ui w file st) as (tr & -> & Hui).
  exists tr. split; [reflexivity|exact Hui].
Qed.

(** X4.  Each call overwrites the scratch file before reading it: the result
    of a call and the disk it leaves depend on its own upload only, not on
    what an earlier call left in [temp.pdf]. *)
Theorem extract_uses_own_upload
        (w w' : World) (earlier file : bytes) (st : State) :
  fst (extract_text_from_pdf w file (snd (extract_text_from_pdf w' earlier st)))
  = fst (extract_text_from_pdf w file st)
  /\ files (snd (extract_text_from_pdf w file
                   (snd (extract_text_from_pdf w' earlier st))))
     = files (snd (extract_text_from_pdf w file st)).
Proof.
  destruct (extract_text_from_pdf_ui w' earlier st) as (tr1 & -> & _).
  cbn [snd].
  destruct (extract_text_from_pdf_ui w file st) as (tr2 & -> & _).
  match goal with |- context [extract_text_from_pdf w file ?s] =>
    destruct (extract_text_from_pdf_ui w file s) as (tr3 & -> & _) end.
  cbn [fst snd files]. split; [reflexivity|].
  apply insert_insert_eq.
Qed.

(** ** More on the clients *)

(** X5.  [detect_and_translate] asks the translator at most once, and only
    when detection succeeded with a language other than the target; the
    request names the detected language and the target.  When it does not ask,
    the state is untouched and the text comes back unchanged; when it asks, it
    returns the translation, or the text unchanged if the translator raises. *)
Theorem detect_and_translate_calls
        (w : World) (text target : pystr) (st : State) :
  (detect_and_translate w text target st = (Ok text, st)
   /\ match detect w text with Ok src => src = target | Raise _ => True end)
  \/ exists src r,
       detect w text = Ok src /\ src <> target
       /\ detect_and_translate w text target st
          = (Ok r, traced st [call_translate src target])
       /\ match translate w text src target with
          | Ok t => r = t
          | Raise _ => r = text
          end.
Proof.
  rewrite detect_and_translate_spec. unfold normalized, translate_calls.
  destruct (detect w text) as [src|e].
  - destruct (bool_decide (src <> target)) eqn:E.
    + right. apply bool_decide_eq_true in E. exists src. eexists.
      split; [reflexivity|]. split; [exact E|]. split; [reflexivity|].
      destruct (translate w text src target); reflexivity.
    + left. apply bool_decide_eq_false in E. rewrite traced_nil.
      split; [reflexivity|].
      destruct (decide (src = target)) as [H|H]; [exact H|contradiction].
  - left. rewrite traced_nil. auto.
Qed.

(** X6.  [analyze_resume] catches nothing from the model: if the request or
    reading the reply raises, the same exception leaves [analyze_resume], after
    the prompt has been sent; otherwise the reply text is returned verbatim.
    The disk and the open handles are not touched. *)
Theorem analyze_resume_propagates
        (w : World) (resume_text : pystr) (job_description : option pystr)
        (language : pystr) (st : State) :
  let prompt :=
    Str.join Str.newline
      (analyze_prompt (normalized w resume_text (py "en")) job_description language) in
  fst (analyze_resume w resume_text job_description language st)
  = match generate_content w prompt with
    | Ok response => text response
    | Raise e => Raise e
    end
  /\ last (trace (snd (analyze_resume w resume_text job_description language st)))
     = Some (call_generate_content prompt)
  /\ files (snd (analyze_resume w resume_text job_description language st)) = files st
  /\ handles (snd (analyze_resume w resume_text job_description language st)) = handles st.
Proof.
  intros prompt. rewrite analyze_resume_spec. fold prompt.
  cbn [fst snd traced trace files handles]. repeat split.
  rewrite app_assoc. apply last_snoc.
Qed.

(** X7.  [check_ats_compliance] never raises.  When the model's reply parses
    as JSON the parsed value is returned as it is, whatever its shape;
    otherwise (the request raises, reading the reply raises, or the reply is
    not JSON) the record of three empty lists is returned.  Either way exactly
    one prompt is sent and nothing is shown to the user. *)
Theorem check_ats_compliance_outcome (w : World) (resume_text : pystr) (st : State) :
  exists j,
    check_ats_compliance w resume_text st
    = (Ok j, traced st [call_generate_content (ats_prompt resume_text)])
    /\ match generate_content w (ats_prompt resume_text) with
       | Raise _ => j = empty_compliance
       | Ok response =>
           match text response with
           | Raise _ => j = empty_compliance
           | Ok t =>
               match json_loads w t with
               | Ok parsed => j = parsed
               | Raise _ => j = empty_compliance
               end
           end
       end.
Proof.
  rewrite check_ats_compliance_spec. eexists. split; [reflexivity|].
  unfold compliance_value, reply.
  destruct (generate_content w (ats_prompt resume_text)) as [response|e]; [|reflexivity].
  destruct (text response) as [t|e]; [|reflexivity].
  destruct (json_loads w t); reflexivity.
Qed.

(** X8.  Text beyond the first 2000 characters cannot influence the
    compliance check: two resume texts with the same first 2000 characters get
    the same prompt, the same result and the same trace. *)
Theorem check_ats_compliance_ignores_tail
        (w : World) (resume_text resume_text' : pystr) (st : State) :
  take 2000 resume_text = take 2000 resume_text' ->
  check_ats_compliance w resume_text st = check_ats_compliance w resume_text' st.
Proof.
  intros H. rewrite !check_ats_compliance_spec.
  unfold compliance_value. rewrite !ats_prompt_split, H. reflexivity.
Qed.

Lemma check_ats_compliance_ignores_tail_witness :
  take 2000 (repeat 65 2000 ++ py "x") = take 2000 (repeat 65 2000 ++ py "yz")
  /\ check_ats_compliance Scenario.text_pdf (repeat 65 2000 ++ py "x") Scenario.fresh
     = check_ats_compliance Scenario.text_pdf (repeat 65 2000 ++ py "yz") Scenario.fresh.
Proof.
  assert (H : take 2000 (repeat 65 2000 ++ py "x")
              = take 2000 (repeat 65 2000 ++ py "yz")) by (vm_compute; reflexivity).
  split; [exact H|].
  exact (check_ats_compliance_ignores_tail Scenario.text_pdf _ _ Scenario.fresh H).
Defined.

(** ** More on the handler *)

Lemma traced_app (st : State) (t1 t2 : list event) :
  traced (traced st t1) t2 = traced st (t1 ++ t2).
Proof. unfold traced. simpl. rewrite app_assoc. reflexivity. Qed.

Lemma emit_spec (e : event) (st : State) : emit e st = (Ok tt, traced st [e]).
Proof. reflexivity. Qed.

Lemma bind_cong {A B} (m1 m2 : M A) (k1 k2 : A -> M B) (st : State) :
  m1 st = m2 st ->
  (forall a st', k1 a st' = k2 a st') ->
  bind m1 k1 st = bind m2 k2 st.
Proof.
  intros Hm Hk. unfold bind. rewrite Hm.
  destruct (m2 st) as [[a|e] st']; [apply Hk|reflexivity].
Qed.

(** The handler is the two clients followed by [present_results]. *)
Lemma run_analysis_unfold (w : World) (resume_text : pystr) (inp : Inputs) :
  run_analysis w resume_text inp
  = (analysis <- analyze_resume w resume_text (Some (job_desc inp)) (language inp) ;;
     ats_data <- check_ats_compliance w resume_text ;;
     present_results w analysis ats_data)%py_m.
Proof. reflexivity. Qed.

Lemma subscript_dict (kvs : list (pystr * json)) (key : pystr) (st : State) :
  subscript (JDict kvs) key st
  = match field kvs key with
    | Some v => (Ok v, st)
    | None => (Raise (py "'" ++ key ++ py "'"), st)
    end.
Proof.
  unfold subscript, field.
  destruct (find (fun kv => bool_decide (fst kv = key)) kvs); reflexivity.
Qed.

Lemma write_items_strs (w : World) (ss : list pystr) (st : State) :
  write_items w (map JStr ss) st
  = (Ok tt, traced st (map (fun s => st_write (py "- " ++ s)) ss)).
Proof.
  revert st. induction ss as [|s ss IH]; intros st.
  - cbn [map write_items]. rewrite traced_nil. reflexivity.
  - cbn [map write_items]. erewrite bind_Ok by apply emit_spec.
    rewrite IH, traced_app. reflexivity.
Qed.

Lemma all_str_strs (i : nat) (ss : list pystr) (st : State) :
  all_str i (map JStr ss) st = (Ok ss, st).
Proof.
  revert i. induction ss as [|s ss IH]; intros i; [reflexivity|].
  cbn [map all_str]. erewrite bind_Ok by apply IH. reflexivity.
Qed.

Lemma join_value_strs (sep : pystr) (ss : list pystr) (st : State) :
  join_value sep (JList (map JStr ss)) st = (Ok (Str.join sep ss), st).
Proof.
  unfold join_value. erewrite bind_Ok by reflexivity.
  erewrite bind_Ok by apply all_str_strs. reflexivity.
Qed.

(** X9.  Unless a file is uploaded and the button is pressed, a run of the
    script sends nothing to the generative model, writes no report and does
    not raise. *)
Theorem run_script_idle (w : World) (inp : Inputs) (st : State) :
  uploaded_file inp = None \/ run_full_analysis inp = false ->
  fst (run_script w inp st) = Ok tt
  /\ prompts_sent (trace (snd (run_script w inp st))) = prompts_sent (trace st)
  /\ files (snd (run_script w inp st)) !! "report.pdf"%string
     = files st !! "report.pdf"%string
  /\ files (snd (run_script w inp st)) !! "report.docx"%string
     = files st !! "report.docx"%string.
Proof.
  intros H. unfold run_script.
  destruct (uploaded_file inp) as [file|]; [|cbn; auto].
  destruct H as [H|H]; [discriminate|]. rewrite H.
  destruct (extract_text_from_pdf_spec w file st) as (tr & HE & Hp).
  erewrite bind_Ok by exact HE. cbn [ret fst snd trace files].
  split; [reflexivity|]. split.
  - change (call_pdfplumber_open "temp.pdf" :: tr)
      with ([call_pdfplumber_open "temp.pdf"] ++ tr).
    rewrite !prompts_sent_app, Hp. cbn. rewrite !app_nil_r. reflexivity.
  - split; apply lookup_insert_ne; discriminate.
Qed.

Lemma run_script_idle_witness :
  (uploaded_file (mkInputs (py "en") (py "Basic") (Some Scenario.upload) [] false) = None
   \/ run_full_analysis
        (mkInputs (py "en") (py "Basic") (Some Scenario.upload) [] false) = false)
  /\ fst (run_script Scenario.text_pdf
                     (mkInputs (py "en") (py "Basic") (Some Scenario.upload) [] false)
                     Scenario.fresh) = Ok tt.
Proof.
  assert (H : uploaded_file
                (mkInputs (py "en") (py "Basic") (Some Scenario.upload) [] false) = None
              \/ run_full_analysis
                   (mkInputs (py "en") (py "Basic") (Some Scenario.upload) [] false)
                 = false) by (right; reflexivity).
  split; [exact H|].
  exact (proj1 (run_script_idle Scenario.text_pdf _ Scenario.fresh H)).
Defined.

(** X10.  A failure of the analysis request is fatal to the run: the
    exception leaves the script, the compliance prompt is never sent, and
    nothing but the scratch file is written. *)
Theorem run_script_analysis_failure
        (w : World) (inp : Inputs) (file : bytes) (st : State) (e : exn) :
  uploaded_file inp = Some file ->
  run_full_analysis inp = true ->
  let prompt :=
    Str.join Str.newline
      (analyze_prompt (normalized w (extracted_text w file) (py "en"))
                      (Some (job_desc inp)) (language inp)) in
  reply w prompt = Raise e ->
  fst (run_script w inp st) = Raise e
  /\ prompts_sent (trace (snd (run_script w inp st)))
     = prompts_sent (trace st) ++ [prompt]
  /\ files (snd (run_script w inp st)) = <["temp.pdf"%string := file]> (files st).
Proof.
  intros Hfile Hrun prompt Hreply. unfold run_script. rewrite Hfile, Hrun.
  destruct (extract_text_from_pdf_spec w file st) as (tr & HE & Hp).
  erewrite bind_Ok by exact HE.
  rewrite run_analysis_unfold.
  erewrite bind_Raise
    by (rewrite analyze_resume_spec; fold prompt; rewrite Hreply; reflexivity).
  cbn [fst snd traced trace files]. split; [reflexivity|]. split; [|reflexivity].
  assert (Hq : prompts_sent (translate_calls w (extracted_text w file) (py "en")) = []).
  { unfold translate_calls.
    destruct (detect w (extracted_text w file)) as [src|e']; [|reflexivity].
    destruct (bool_decide (src <> py "en")); reflexivity. }
  change (call_pdfplumber_open "temp.pdf" :: tr)
    with ([call_pdfplumber_open "temp.pdf"] ++ tr).
  rewrite !prompts_sent_app, Hp, Hq. cbn. rewrite !app_nil_r. reflexivity.
Qed.

Lemma run_script_analysis_failure_witness :
  fst (run_script Scenario2.offline_model (Scenario.widgets (py "en") (py "Basic"))
                  Scenario.fresh)
  = Raise (py "503 Service Unavailable").
Proof.
  exact (proj1 (run_script_analysis_failure
                  Scenario2.offline_model (Scenario.widgets (py "en") (py "Basic"))
                  Scenario.upload Scenario.fresh (py "503 Service Unavailable")
                  eq_refl eq_refl eq_refl)).
Defined.

(** X11.  Of the compliance record the handler reads the fields [strengths]
    and [suggestions] only: two records that agree on these two give the same
    run, so [weaknesses], although requested from the model, is neither shown
    nor exported. *)
Theorem present_results_reads_two_fields
        (w : World) (analysis : pystr) (kvs kvs' : list (pystr * json)) (st : State) :
  field kvs (py "strengths") = field kvs' (py "strengths") ->
  field kvs (py "suggestions") = field kvs' (py "suggestions") ->
  present_results w analysis (JDict kvs) st = present_results w analysis (JDict kvs') st.
Proof.
  intros H1 H2. unfold present_results.
  repeat (apply bind_cong;
          [ first [ reflexivity
                  | rewrite !subscript_dict, H1; reflexivity
                  | rewrite !subscript_dict, H2; reflexivity ]
          | intros ]).
  reflexivity.
Qed.

Lemma present_results_reads_two_fields_witness :
  present_results Scenario.text_pdf (py "Looks fine.")
    (JDict [ (py "strengths", JList [JStr (py "Clear")]);
             (py "weaknesses", JList [JStr (py "Long")]);
             (py "suggestions", JList []) ]) Scenario.fresh
  = present_results Scenario.text_pdf (py "Looks fine.")
      (JDict [ (py "strengths", JList [JStr (py "Clear")]);
               (py "suggestions", JList []) ]) Scenario.fresh.
Proof.
  exact (present_results_reads_two_fields Scenario.text_pdf (py "Looks fine.") _ _
           Scenario.fresh eq_refl eq_refl).
Defined.

(** X12.  A compliance record without the field [strengths] stops the
    handler with KeyError ['strengths'] right after the "Strengths:" header is
    shown: the analysis text is not displayed and no report is exported. *)
Theorem present_results_missing_strengths
        (w : World) (analysis : pystr) (kvs : list (pystr * json)) (st : State) :
  field kvs (py "strengths") = None ->
  present_results w analysis (JDict kvs) st
  = (Raise (py "'strengths'"),
     traced st [ st_success (py "Analysis Complete!");
                 st_subheader ([128203] ++ py " ATS Compliance Analysis");
                 st_write ([9989] ++ py " Strengths:") ]).
Proof.
  intros H. unfold present_results.
  do 3 (erewrite bind_Ok by apply emit_spec).
  erewrite bind_Raise by (rewrite subscript_dict, H; reflexivity).
  rewrite !traced_app. reflexivity.
Qed.

Lemma present_results_missing_strengths_witness :
  fst (present_results Scenario.text_pdf (py "Looks fine.") (JDict []) Scenario.fresh)
  = Raise (py "'strengths'").
Proof.
  exact (f_equal fst
           (present_results_missing_strengths Scenario.text_pdf (py "Looks fine.") []
              Scenario.fresh eq_refl)).
Defined.

(** With lists of strings in both fields the handler shows them and goes on
    to export the report built from them. *)
Lemma present_results_lists
        (w : World) (analysis : pystr) (kvs : list (pystr * json))
        (strengths suggestions : list pystr) (st : State) :
  field kvs (py "strengths") = Some (JList (map JStr strengths)) ->
  field kvs (py "suggestions") = Some (JList (map JStr suggestions)) ->
  present_results w analysis (JDict kvs) st
  = export_reports w
      (report_content analysis (Str.join (py ", ") strengths)
                      (Str.join (py ", ") suggestions))
      (traced st (display_events analysis strengths suggestions)).
Proof.
  intros H1 H2. unfold present_results.
  assert (S1 : forall s, subscript (JDict kvs) (py "strengths") s
                         = (Ok (JList (map JStr strengths)), s))
    by (intros; rewrite subscript_dict, H1; reflexivity).
  assert (S2 : forall s, subscript (JDict kvs) (py "suggestions") s
                         = (Ok (JList (map JStr suggestions)), s))
    by (intros; rewrite subscript_dict, H2; reflexivity).
  do 3 (erewrite bind_Ok by apply emit_spec).
  erewrite bind_Ok by apply S1.
  erewrite bind_Ok by reflexivity.
  erewrite bind_Ok by apply write_items_strs.
  erewrite bind_Ok by apply emit_spec.
  erewrite bind_Ok by apply S2.
  erewrite bind_Ok by reflexivity.
  erewrite bind_Ok by apply write_items_strs.
  do 2 (erewrite bind_Ok by apply emit_spec).
  erewrite bind_Ok by apply S1.
  erewrite bind_Ok by apply join_value_strs.
  erewrite bind_Ok by apply S2.
  erewrite bind_Ok by apply join_value_strs.
  rewrite !traced_app. unfold display_events.
  rewrite <- ?app_assoc. reflexivity.
Qed.

(** ** More on the reports *)

Lemma generate_pdf_report_spec
      (w : World) (content : pystr) (filename : string) (st : State) :
  let f := match add_font_arial w with Ok _ => Arial | Raise _ => Helvetica end in
  let shown := match add_font_arial w with
               | Ok _ => content
               | Raise _ => clean_text_for_pdf content
               end in
  let loaded := match add_font_arial w with
                | Ok _ => cached "c:/windows/fonts/arial.pkl" (add_font_cache w) (files st)
                | Raise _ => files st
                end in
  let closed := match add_font_arial w with
                | Ok _ => cached "c:/windows/fonts/arial.cw127.pkl" (output_cache w) loaded
                | Raise _ => loaded
                end in
  generate_pdf_report w content filename st
  = match multi_cell w (Some f) shown with
    | Raise e =>
        (Ok None,
         mkState loaded (handles st)
                 (trace st ++ [st_error (py "PDF generation failed: " ++ e)]))
    | Ok _ =>
        match fpdf_output w (mkFPDF (Some f) [shown]) with
        | Saved data =>
            (Ok (Some filename),
             mkState (<[filename := data]> closed) (handles st) (trace st))
        | NotSaved partial e =>
            (Ok None,
             mkState (match partial with
                      | Some data => <[filename := data]> closed
                      | None => closed
                      end)
                     (handles st)
                     (trace st ++ [st_error (py "PDF generation failed: " ++ e)]))
        end
    end.
Proof.
  unfold generate_pdf_report, output, try_except, bind, lift, ret, save_to, emit,
    set_font, leave_cache, cached.
  destruct (add_font_arial w) as [[]|e0]; cbn [current_font cells app fst snd].
  - destruct (add_font_cache w) as [c1|]; cbn [fst snd current_font cells app files handles trace];
      (destruct (multi_cell w (Some Arial) content) as [[]|e1]; [|reflexivity]);
      destruct (output_cache w) as [c2|]; cbn [fst snd files handles trace];
      destruct (fpdf_output w _) as [data|[data|] e2]; reflexivity.
  - destruct (multi_cell w (Some Helvetica) (clean_text_for_pdf content)) as [[]|e1];
      [|reflexivity].
    destruct (fpdf_output w _) as [data|[data|] e2]; reflexivity.
Qed.

Lemma generate_word_report_spec
      (w : World) (content : pystr) (filename : string) (st : State) :
  generate_word_report w content filename st
  = match docx_save w (word_document content) with
    | Saved data =>
        (Ok (Some filename),
         mkState (<[filename := data]> (files st)) (handles st) (trace st))
    | NotSaved partial e =>
        (Ok None,
         mkState (match partial with
                  | Some data => <[filename := data]> (files st)
                  | None => files st
                  end)
                 (handles st)
                 (trace st ++ [st_error (py "Word report generation failed: " ++ e)]))
    end.
Proof.
  unfold generate_word_report, try_except, bind, ret, save_to, emit.
  fold (word_document content).
  destruct (docx_save w (word_document content)) as [data|[data|] e]; reflexivity.
Qed.

Lemma offer_download_spec (p : string) (label file_name : pystr) (data : bytes)
      (st : State) :
  files st !! p = Some data ->
  offer_download (Some p) label file_name st
  = (Ok tt, traced st [st_download_button label data file_name]).
Proof.
  intros H. unfold offer_download, bind, open_rb, emit, close, traced.
  rewrite H. cbn [files handles trace close_handle].
  rewrite String.eqb_refl. reflexivity.
Qed.


(** X15.  When the Unicode font loads, the content reaches FPDF unchanged,
    under that font: nothing is replaced, not even the seven characters of the
    fallback.  If FPDF accepts it and writes the document, the file name is
    returned, the report file holds that document and nothing is shown;
    otherwise [None] is returned and the error is shown. *)
Theorem generate_pdf_report_unicode
        (w : World) (content : pystr) (filename : string) (st : State) :
  add_font_arial w = Ok tt ->
  handles (snd (generate_pdf_report w content filename st)) = handles st
  /\ match multi_cell w (Some Arial) content with
     | Raise e =>
         fst (generate_pdf_report w content filename st) = Ok None
         /\ trace (snd (generate_pdf_report w content filename st))
            = trace st ++ [st_error (py "PDF generation failed: " ++ e)]
     | Ok _ =>
         match fpdf_output w (mkFPDF (Some Arial) [content]) with
         | Saved data =>
             fst (generate_pdf_report w content filename st) = Ok (Some filename)
             /\ files (snd (generate_pdf_report w content filename st)) !! filename
                = Some data
             /\ trace (snd (generate_pdf_report w content filename st)) = trace st
         | NotSaved _ e =>
             fst (generate_pdf_report w content filename st) = Ok None
             /\ trace (snd (generate_pdf_report w content filename st))
                = trace st ++ [st_error (py "PDF generation failed: " ++ e)]
         end
     end.
Proof.
  intros Hfont. rewrite generate_pdf_report_spec, Hfont. cbv zeta.
  destruct (multi_cell w (Some Arial) content) as [[]|e1]; [|auto].
  destruct (fpdf_output w _) as [data|partial e2]; cbn [fst snd handles files trace].
  - split; [reflexivity|]. split; [reflexivity|]. split; [|reflexivity].
    apply lookup_insert_eq.
  - auto.
Qed.

Lemma generate_pdf_report_unicode_witness :
  add_font_arial Scenario2.with_arial = Ok tt
  /\ fst (generate_pdf_report Scenario2.with_arial (py "don" ++ [8217] ++ py "t")
                              "report.pdf" Scenario.fresh)
     = Ok (Some "report.pdf"%string).
Proof.
  assert (H : add_font_arial Scenario2.with_arial = Ok tt) by reflexivity.
  split; [exact H|].
  exact (proj1 (proj2 (generate_pdf_report_unicode Scenario2.with_arial
                         (py "don" ++ [8217] ++ py "t") "report.pdf"
                         Scenario.fresh H))).
Defined.

Lemma nonblank_paragraphs (lines : list pystr) :
  Forall (fun line => ~ In 10 line) lines ->
  Forall (fun p => Str.strip p <> [] /\ ~ In 10 p)
         (filter (fun line => Str.truthy (Str.strip line)) lines).
Proof.
  induction 1 as [|line lines Hl _ IH]; [constructor|].
  rewrite filter_cons. destruct (decide _) as [Ht|Ht]; [|exact IH].
  constructor; [|exact IH]. split; [|exact Hl].
  intros E. rewrite E in Ht. exact Ht.
Qed.

(** X16.  The Word report is the heading "Resume Analysis Report" followed
    by exactly the non-blank lines of the content, one paragraph each, in the
    order of the lines: blank lines are dropped, and no paragraph is blank or
    contains a newline.  [generate_word_report] never raises: when python-docx
    saves that document it returns the file name and the file holds the saved
    document; otherwise it returns [None] and shows the error. *)
Theorem generate_word_report_document
        (w : World) (content : pystr) (filename : string) (st : State) :
  let ps := filter (fun line => Str.strip line <> []) (Str.split 10 content) in
  Forall (fun p => Str.strip p <> [] /\ ~ In 10 p) ps
  /\ (forall line, line ∈ ps <-> line ∈ Str.split 10 content /\ Str.strip line <> [])
  /\ ps `sublist_of` Str.split 10 content
  /\ match docx_save w (Heading 0 (py "Resume Analysis Report") :: map Paragraph ps) with
     | Saved data =>
         fst (generate_word_report w content filename st) = Ok (Some filename)
         /\ files (snd (generate_word_report w content filename st)) !! filename
            = Some data
         /\ trace (snd (generate_word_report w content filename st)) = trace st
     | NotSaved _ e =>
         fst (generate_word_report w content filename st) = Ok None
         /\ trace (snd (generate_word_report w content filename st))
            = trace st ++ [st_error (py "Word report generation failed: " ++ e)]
     end.
Proof.
  intros ps.
  assert (Hps : ps = filter (fun line => Str.truthy (Str.strip line))
                            (Str.split 10 content)).
  { subst ps. apply list_filter_iff. intros line.
    destruct (Str.strip line); cbn; split; intros H; try exact I; try discriminate;
      try contradiction; congruence. }
  split; [rewrite Hps; apply nonblank_paragraphs, StrMore.split_no_sep|].
  split.
  { intros line. subst ps. rewrite list_elem_of_filter. tauto. }
  split; [apply sublist_filter|].
  rewrite generate_word_report_spec. unfold word_document. rewrite <- Hps.
  destruct (docx_save w _) as [data|partial e]; cbn [fst snd files trace].
  - split; [reflexivity|]. split; [apply lookup_insert_eq|reflexivity].
  - split; reflexivity.
Qed.

(** X17.  For content without blank lines nothing is lost on the way into
    the Word report: joining its paragraphs with newlines gives the content
    back. *)
Theorem word_report_keeps_content (content : pystr) :
  Forall (fun line => Str.strip line <> []) (Str.split 10 content) ->
  Str.join Str.newline (omap paragraph_text (word_document content)) = content.
Proof.
  intros H.
  assert (Hf : filter (fun line => Str.truthy (Str.strip line)) (Str.split 10 content)
               = Str.split 10 content).
  { induction H as [|line lines Hl _ IH]; [reflexivity|].
    rewrite filter_cons_True, IH; [reflexivity|].
    destruct (Str.strip line); [contradiction|exact I]. }
  assert (Ho : forall ls, omap paragraph_text (map Paragraph ls) = ls).
  { induction ls as [|l ls IH]; [reflexivity|]. cbn. f_equal. exact IH. }
  assert (Hh : forall n h bs,
             omap paragraph_text (Heading n h :: bs) = omap paragraph_text bs)
    by reflexivity.
  unfold word_document. rewrite Hh, Hf, Ho. apply StrMore.join_split.
Qed.

Lemma word_report_keeps_content_witness :
  Forall (fun line => Str.strip line <> [])
         (Str.split 10 (py "RESUME ANALYSIS REPORT" ++ [10] ++ py "Looks fine."))
  /\ Str.join Str.newline
       (omap paragraph_text
             (word_document (py "RESUME ANALYSIS REPORT" ++ [10] ++ py "Looks fine.")))
     = py "RESUME ANALYSIS REPORT" ++ [10] ++ py "Looks fine.".
Proof.
  assert (H : Forall (fun line => Str.strip line <> [])
                (Str.split 10 (py "RESUME ANALYSIS REPORT" ++ [10] ++ py "Looks fine."))).
  { vm_compute. repeat constructor; discriminate. }
  split; [exact H|].
  exact (word_report_keeps_content _ H).
Defined.

Lemma export_reports_run (w : World) (content : pystr) (st : State) :
  exists tr st',
    export_reports w content st = (Ok tt, st')
    /\ handles st' = handles st
    /\ trace st' = trace st ++ tr
    /\ prompts_sent tr = []
    /\ Forall (fun e =>
                 match e with
                 | st_download_button _ data _ =>
                     files st' !! "report.pdf"%string = Some data
                     \/ files st' !! "report.docx"%string = Some data
                 | _ => True
                 end) tr.
Proof.
  assert (Hne : "report.docx"%string <> "report.pdf"%string) by discriminate.
  remember (export_reports w content st) as run eqn:E.
  unfold export_reports in E.
  unfold bind at 1 in E. rewrite generate_pdf_report_spec in E. cbv zeta in E.
  destruct (multi_cell w _ _) as [[]|e1];
    [destruct (fpdf_output w _) as [d1|partial e2]|].
  1: erewrite bind_Ok in E by (apply offer_download_spec; apply lookup_insert_eq).
  2, 3: erewrite bind_Ok in E by reflexivity.
  all: unfold bind at 1 in E; rewrite generate_word_report_spec in E;
    destruct (docx_save w _) as [d2|partial' e3];
    [ rewrite (offer_download_spec _ _ _ d2) in E by apply lookup_insert_eq
    | cbn [offer_download ret] in E ];
    subst run; cbn [fst snd traced trace files handles];
    eexists _, _; (split; [reflexivity|]); cbn [handles trace files traced];
    (split; [reflexivity|]);
    (split; [rewrite <- ?app_assoc; reflexivity|]);
    (split; [reflexivity|]);
    cbn [app];
    repeat match goal with
           | |- Forall _ (_ :: _) => constructor
           | |- Forall _ [] => constructor
           end;
    try exact I;
    try destruct partial';
    first [ left; rewrite ?lookup_insert_eq, ?(lookup_insert_ne _ _ _ _ Hne),
                    ?lookup_insert_eq; reflexivity
          | right; rewrite ?lookup_insert_eq; reflexivity ].
Qed.

(** X18.  Exporting never stops the handler: whatever FPDF and python-docx
    do, [export_reports] returns normally with every file object closed, and
    every download button it offers carries the content of a report file that
    is on disk. *)
Theorem export_reports_never_raises (w : World) (content : pystr) (st : State) :
  exists tr,
    fst (export_reports w content st) = Ok tt
    /\ handles (snd (export_reports w content st)) = handles st
    /\ trace (snd (export_reports w content st)) = trace st ++ tr
    /\ Forall (fun e =>
                 match e with
                 | st_download_button _ data _ =>
                     files (snd (export_reports w content st)) !! "report.pdf"%string
                     = Some data
                     \/ files (snd (export_reports w content st)) !! "report.docx"%string
                        = Some data
                 | _ => True
                 end) tr.
Proof.
  destruct (export_reports_run w content st) as (tr & st' & -> & Hh & Ht & _ & Hf).
  exists tr. cbn [fst snd]. auto.
Qed.

(** X13.  When the analysis request succeeds and the compliance value holds
    lists of strings under [strengths] and [suggestions] (as the fallback record
    does), a run of the script completes without raising: it sends the
    analysis prompt and then the compliance prompt, shows the banner, each
    strength and each suggestion as a "- " item in order and the analysis
    text, and closes every file object it opened. *)
Theorem run_script_completes
        (w : World) (inp : Inputs) (file : bytes) (st : State)
        (analysis : pystr) (kvs : list (pystr * json))
        (strengths suggestions : list pystr) :
  uploaded_file inp = Some file ->
  run_full_analysis inp = true ->
  let raw := extracted_text w file in
  let prompt :=
    Str.join Str.newline
      (analyze_prompt (normalized w raw (py "en")) (Some (job_desc inp)) (language inp)) in
  reply w prompt = Ok analysis ->
  compliance_value w raw = JDict kvs ->
  field kvs (py "strengths") = Some (JList (map JStr strengths)) ->
  field kvs (py "suggestions") = Some (JList (map JStr suggestions)) ->
  fst (run_script w inp st) = Ok tt
  /\ handles (snd (run_script w inp st)) = handles st
  /\ prompts_sent (trace (snd (run_script w inp st)))
     = prompts_sent (trace st) ++ [prompt; ats_prompt raw]
  /\ exists before after,
       trace (snd (run_script w inp st))
       = trace st ++ before ++ display_events analysis strengths suggestions ++ after.
Proof.
  intros Hfile Hrun raw prompt Hreply Hcv H1 H2.
  unfold run_script. rewrite Hfile, Hrun.
  destruct (extract_text_from_pdf_spec w file st) as (tr & HE & Hp).
  erewrite bind_Ok by exact HE. fold raw.
  rewrite run_analysis_unfold.
  erewrite bind_Ok
    by (rewrite analyze_resume_spec; fold prompt; rewrite Hreply; reflexivity).
  erewrite bind_Ok by apply check_ats_compliance_spec.
  rewrite Hcv, (present_results_lists w analysis kvs strengths suggestions _ H1 H2).
  match goal with |- context [export_reports w ?c ?s] =>
    destruct (export_reports_run w c s) as (tr2 & st' & -> & Hh & Ht & Hq & _) end.
  cbn [fst snd]. split; [reflexivity|]. split; [rewrite Hh; reflexivity|].
  rewrite Ht. cbn [traced trace].
  assert (Hc : prompts_sent (translate_calls w raw (py "en")) = []).
  { unfold translate_calls. destruct (detect w raw) as [src|e]; [|reflexivity].
    destruct (bool_decide (src <> py "en")); reflexivity. }
  assert (Hd : prompts_sent (display_events analysis strengths suggestions) = []).
  { unfold display_events. rewrite !prompts_sent_app.
    assert (Hm : forall l, prompts_sent (map (fun s => st_write (py "- " ++ s)) l) = []).
    { induction l as [|x l IH]; [reflexivity|exact IH]. }
    rewrite !Hm. reflexivity. }
  split.
  - change (call_pdfplumber_open "temp.pdf" :: tr)
      with ([call_pdfplumber_open "temp.pdf"] ++ tr).
    rewrite !prompts_sent_app, Hp, Hc, Hd, Hq. cbn. rewrite !app_nil_r.
    rewrite <- app_assoc. reflexivity.
  - eexists (call_pdfplumber_open "temp.pdf" :: tr
             ++ translate_calls w raw (py "en")
             ++ [call_generate_content prompt; call_generate_content (ats_prompt raw)]),
            tr2.
    rewrite <- !app_assoc. cbn [app]. rewrite <- !app_assoc. reflexivity.
Qed.

Lemma run_script_completes_witness :
  fst (run_script Scenario.text_pdf (Scenario.widgets (py "en") (py "Basic"))
                  Scenario.fresh) = Ok tt.
Proof.
  exact (proj1 (run_script_completes
                  Scenario.text_pdf (Scenario.widgets (py "en") (py "Basic"))
                  Scenario.upload Scenario.fresh (py "Looks fine.")
                  [ (py "strengths", JList []); (py "weaknesses", JList []);
                    (py "suggestions", JList []) ] [] []
                  eq_refl eq_refl eq_refl eq_refl eq_refl eq_refl)).
Defined.

(** ** More on the ASCII fallback *)

(** One of the seven characters, once [c] is known. *)
Ltac replaced_case :=
  right; split; [reflexivity|];
  eexists _, _; split; [reflexivity|];
  split; [discriminate|];
  split; [repeat constructor | cbn; lia].

Lemma ascii_equivalent_cases (c : N) :
  (is_replaced c = false /\ ascii_equivalent c = [c])
  \/ (is_replaced c = true
      /\ exists x rest,
           ascii_equivalent c = x :: rest /\ x <> c
           /\ Forall (fun y => is_replaced y = false) (x :: rest)
           /\ (length rest <= 2)%nat).
Proof.
  destruct (N.eqb_spec c 8211) as [->|H1]; [replaced_case|].
  destruct (N.eqb_spec c 8212) as [->|H2]; [replaced_case|].
  destruct (N.eqb_spec c 8216) as [->|H3]; [replaced_case|].
  destruct (N.eqb_spec c 8217) as [->|H4]; [replaced_case|].
  destruct (N.eqb_spec c 8220) as [->|H5]; [replaced_case|].
  destruct (N.eqb_spec c 8221) as [->|H6]; [replaced_case|].
  destruct (N.eqb_spec c 8230) as [->|H7]; [replaced_case|].
  apply N.eqb_neq in H1, H2, H3, H4, H5, H6, H7.
  left. unfold is_replaced, ascii_equivalent.
  rewrite H1, H2, H3, H4, H5, H6, H7. auto.
Qed.

Lemma clean_text_free (s : pystr) :
  Forall (fun c => is_replaced c = false) (clean_text_for_pdf s).
Proof.
  rewrite clean_text_for_pdf_pointwise.
  induction s as [|c s IH]; [constructor|].
  cbn [flat_map]. apply Forall_app. split; [|exact IH].
  destruct (ascii_equivalent_cases c) as [[Hc ->]|(_ & x & rest & -> & _ & Hf & _)].
  - repeat constructor. exact Hc.
  - exact Hf.
Qed.

Lemma clean_text_fixed (s : pystr) :
  Forall (fun c => is_replaced c = false) s -> clean_text_for_pdf s = s.
Proof.
  rewrite clean_text_for_pdf_pointwise.
  induction 1 as [|c s Hc _ IH]; [reflexivity|].
  cbn [flat_map]. rewrite IH.
  destruct (ascii_equivalent_cases c) as [[_ ->]|(Hr & _)]; [reflexivity|congruence].
Qed.

(** X19.  Cleaning is idempotent and complete: the cleaned text contains
    none of the seven replaced characters, and cleaning it again changes
    nothing. *)
Theorem clean_text_for_pdf_idempotent (text : pystr) :
  Forall (fun c => is_replaced c = false) (clean_text_for_pdf text)
  /\ clean_text_for_pdf (clean_text_for_pdf text) = clean_text_for_pdf text.
Proof.
  split; [apply clean_text_free|].
  apply clean_text_fixed, clean_text_free.
Qed.

(** X20.  Cleaning leaves a text unchanged exactly when it contains none of
    the seven replaced characters; in particular plain ASCII text passes
    through as it is. *)
Theorem clean_text_for_pdf_unchanged_iff (text : pystr) :
  clean_text_for_pdf text = text <-> existsb is_replaced text = false.
Proof.
  split.
  - rewrite clean_text_for_pdf_pointwise.
    induction text as [|c s IH]; [reflexivity|].
    cbn [flat_map existsb]. intros H.
    destruct (ascii_equivalent_cases c)
      as [[Hc Hs]|(_ & x & rest & Hs & Hx & _)]; rewrite Hs in H.
    + rewrite Hc. injection H as H. exact (IH H).
    + injection H as H _. contradiction.
  - intros H. apply clean_text_fixed.
    induction text as [|c s IH]; [constructor|].
    cbn [existsb] in H. apply orb_false_iff in H as [Hc Hs].
    constructor; [exact Hc|exact (IH Hs)].
Qed.

(** X21.  Cleaning never shortens a text and at most triples its length
    (the ellipsis becomes three full stops). *)
Theorem clean_text_for_pdf_length (text : pystr) :
  (length text <= length (clean_text_for_pdf text) <= 3 * length text)%nat.
Proof.
  rewrite clean_text_for_pdf_pointwise.
  induction text as [|c s IH]; [cbn; lia|].
  cbn [flat_map]. rewrite length_app. cbn [length].
  destruct (ascii_equivalent_cases c)
    as [[_ ->]|(_ & x & rest & -> & _ & _ & Hl)]; cbn [length]; lia.
Qed.

(** ** What a run leaves behind *)

Lemma tidy_ret {A} (a : A) : tidy (ret a).
Proof. intros st. auto. Qed.

Lemma tidy_raise {A} (e : exn) : tidy (@raise A e).
Proof. intros st. auto. Qed.

Lemma tidy_lift {A} (r : result A) : tidy (lift r).
Proof. intros st. auto. Qed.

Lemma tidy_emit (e : event) : tidy (emit e).
Proof. intros st. auto. Qed.

Lemma tidy_bind {A B} (m : M A) (k : A -> M B) :
  tidy m -> (forall a, tidy (k a)) -> tidy (bind m k).
Proof.
  intros Hm Hk st. unfold bind. destruct (Hm st) as [Hh Hf].
  destruct (m st) as [[a|e] st']; cbn [snd] in *.
  - destruct (Hk a st') as [Hh' Hf']. split; congruence.
  - auto.
Qed.

Lemma tidy_try_except {A} (m : M A) (h : exn -> M A) :
  tidy m -> (forall e, tidy (h e)) -> tidy (try_except m h).
Proof.
  intros Hm Hh st. unfold try_except. destruct (Hm st) as [Hh1 Hf].
  destruct (m st) as [[a|e] st']; cbn [snd] in *.
  - auto.
  - destruct (Hh e st') as [Hh' Hf']. split; congruence.
Qed.

Lemma tidy_traced {A} (m : M A) :
  (forall st, exists r tr, m st = (r, traced st tr)) -> tidy m.
Proof. intros H st. destruct (H st) as (r & tr & ->). auto. Qed.

Lemma tidy_subscript (obj : json) (key : pystr) : tidy (subscript obj key).
Proof.
  destruct obj; try apply tidy_raise. unfold subscript.
  destruct (find _ kvs); [apply tidy_ret | apply tidy_raise].
Qed.

Lemma tidy_iterate (obj : json) : tidy (iterate obj).
Proof. destruct obj; first [apply tidy_raise | apply tidy_ret]. Qed.

Lemma tidy_all_str (i : nat) (items : list json) : tidy (all_str i items).
Proof.
  revert i. induction items as [|item rest IH]; intros i; [apply tidy_ret|].
  destruct item; try apply tidy_raise.
  cbn [all_str]. apply tidy_bind; [apply IH | intros; apply tidy_ret].
Qed.

Lemma tidy_write_items (w : World) (items : list json) : tidy (write_items w items).
Proof.
  induction items as [|item rest IH]; [apply tidy_ret|].
  cbn [write_items]. apply tidy_bind; [apply tidy_emit | intros; exact IH].
Qed.

Lemma tidy_save_to (path : string) (s : saved) :
  path <> "temp.pdf"%string -> tidy (save_to path s).
Proof.
  intros Hp st. destruct s as [data|[data|] e]; cbn [save_to snd handles files];
    (split; [reflexivity|]); try reflexivity;
    apply lookup_insert_ne; exact Hp.
Qed.

Lemma tidy_leave_cache (path : string) (cache : option bytes) :
  path <> "temp.pdf"%string -> tidy (leave_cache path cache).
Proof.
  intros Hp st. destruct cache as [data|]; cbn [leave_cache snd handles files];
    (split; [reflexivity|]); try reflexivity.
  apply lookup_insert_ne; exact Hp.
Qed.

Lemma tidy_output (w : World) (pdf : FPDF) (filename : string) :
  filename <> "temp.pdf"%string -> tidy (output w pdf filename).
Proof.
  intros Hp. unfold output. apply tidy_bind; [|intros; apply tidy_save_to; exact Hp].
  destruct (current_font pdf) as [[]|];
    first [apply tidy_leave_cache; discriminate | apply tidy_ret].
Qed.

Lemma tidy_offer_download (path : option string) (label file_name : pystr) :
  tidy (offer_download path label file_name).
Proof.
  destruct path as [p|]; [|apply tidy_ret].
  intros st. unfold offer_download, bind, open_rb, emit, close.
  destruct (files st !! p); cbn [snd handles files close_handle]; [|auto].
  rewrite String.eqb_refl. auto.
Qed.

Lemma tidy_analyze_resume (w : World) (resume_text : pystr)
      (job_description : option pystr) (language : pystr) :
  tidy (analyze_resume w resume_text job_description language).
Proof.
  apply tidy_traced. intros st. rewrite analyze_resume_spec. eauto.
Qed.

Lemma tidy_check_ats_compliance (w : World) (resume_text : pystr) :
  tidy (check_ats_compliance w resume_text).
Proof.
  apply tidy_traced. intros st. rewrite check_ats_compliance_spec. eauto.
Qed.

Create HintDb tidy.

#[local] Hint Resolve tidy_ret tidy_raise tidy_lift tidy_emit tidy_subscript
  tidy_iterate tidy_all_str tidy_write_items tidy_offer_download
  tidy_analyze_resume tidy_check_ats_compliance : tidy.

Ltac solve_tidy :=
  repeat first
    [ progress intros
    | progress cbv zeta
    | apply tidy_output; discriminate
    | apply tidy_leave_cache; discriminate
    | apply tidy_save_to; discriminate
    | apply tidy_bind
    | apply tidy_try_except
    | solve [auto with tidy]
    | match goal with |- tidy (let '(_, _) := ?p in _) => destruct p end
    | match goal with |- tidy (if ?b then _ else _) => destruct b end
    | match goal with |- tidy (match ?p with Some _ => _ | None => _ end) => destruct p end ].

Lemma tidy_run_analysis (w : World) (resume_text : pystr) (inp : Inputs) :
  tidy (run_analysis w resume_text inp).
Proof.
  unfold run_analysis, join_value, generate_pdf_report, generate_word_report.
  solve_tidy.
Qed.

(** X22.  Whatever the libraries and the model do, and whether or not the
    run ends in an exception, a run of the script leaves no file object open;
    and nothing after the extraction touches the scratch file: with a file
    uploaded, [temp.pdf] holds the uploaded bytes when the run ends, and
    without one it is as it was. *)
Theorem run_script_closes_every_file (w : World) (inp : Inputs) (st : State) :
  handles (snd (run_script w inp st)) = handles st
  /\ files (snd (run_script w inp st)) !! "temp.pdf"%string
     = match uploaded_file inp with
       | Some file => Some file
       | None => files st !! "temp.pdf"%string
       end.
Proof.
  unfold run_script. destruct (uploaded_file inp) as [file|]; [|auto].
  destruct (extract_text_from_pdf_spec w file st) as (tr & HE & _).
  erewrite bind_Ok by exact HE.
  destruct (run_full_analysis inp).
  - match goal with |- context [run_analysis w ?t inp ?s] =>
      destruct (tidy_run_analysis w t inp s) as [Hh Hf] end.
    rewrite Hh, Hf. cbn [handles files]. split; [reflexivity|apply lookup_insert_eq].
  - cbn [ret snd handles files]. split; [reflexivity|apply lookup_insert_eq].
Qed.
